(** * ElevationMap: the grid-based recursive fusion engine

    A shallow embedding of
    [starleth_elevation_map/src/ElevationMap.cpp] and the properties of
    its specification.

    Conventions of the embedding.

    - A C++ [double] is a value of [double] below: NaN, the two
      infinities, or an exact rational.  Arithmetic on finite values is
      exact (rounding, overflow and the sign of zero are not modelled);
      the special values follow IEEE 754.  Finite results are kept in
      lowest terms ([Qred]), so that concrete runs compute to canonical
      fractions.
    - [ros::Time] and [ros::Duration] are exact rationals, in seconds.
    - An Eigen matrix is its two dimensions and its coefficient function.
    - The member functions of the class are computations in the monad
      [M]: they read and update the [ElevationMap] object and emit the
      outside effects (log lines, transforms sent, maps published) as a
      list of events.
    - The ROS environment of a callback (number of subscribers, the tf
      lookup, the clock) is an input of the callback. *)

From Stdlib Require Import ZArith QArith Qround Qreduction List String Bool Lia Lqa.
Import ListNotations.
Local Open Scope Z_scope.

(** ** Doubles *)

Module Double.

Inductive double : Type :=
| NaN
| PInf
| NInf
| Fin (q : Q).

Definition isnan (x : double) : bool :=
  match x with NaN => true | _ => false end.

Definition isfinite (x : double) : bool :=
  match x with Fin _ => true | _ => false end.

(** Sign of a value that is not NaN; zero counts as positive zero. *)
Definition negative (x : double) : bool :=
  match x with
  | NInf => true
  | Fin q => match q ?= 0 with Lt => true | _ => false end
  | _ => false
  end%Q.

Definition is_zero (x : double) : bool :=
  match x with
  | Fin q => match q ?= 0 with Eq => true | _ => false end
  | _ => false
  end%Q.

Definition inf_of_sign (neg : bool) : double := if neg then NInf else PInf.

Definition dadd (x y : double) : double :=
  match x, y with
  | NaN, _ | _, NaN => NaN
  | PInf, NInf | NInf, PInf => NaN
  | PInf, _ | _, PInf => PInf
  | NInf, _ | _, NInf => NInf
  | Fin a, Fin b => Fin (Qred (a + b))
  end.

Definition dmul (x y : double) : double :=
  match x, y with
  | NaN, _ | _, NaN => NaN
  | Fin a, Fin b => Fin (Qred (a * b))
  | _, _ =>
      if is_zero x || is_zero y then NaN
      else inf_of_sign (xorb (negative x) (negative y))
  end.

Definition ddiv (x y : double) : double :=
  match x, y with
  | NaN, _ | _, NaN => NaN
  | Fin a, Fin b =>
      if is_zero y
      then (if is_zero x then NaN else inf_of_sign (negative x))
      else Fin (Qred (a / b))
  | Fin _, _ => Fin 0
  | _, Fin _ => inf_of_sign (xorb (negative x) (negative y))
  | _, _ => NaN
  end.

(** Ordered comparison; [None] when one side is NaN. *)
Definition dcompare (x y : double) : option comparison :=
  match x, y with
  | NaN, _ | _, NaN => None
  | PInf, PInf | NInf, NInf => Some Eq
  | PInf, _ | _, NInf => Some Gt
  | NInf, _ | _, PInf => Some Lt
  | Fin a, Fin b => Some (a ?= b)%Q
  end.

Definition dlt (x y : double) : bool :=
  match dcompare x y with Some Lt => true | _ => false end.

Definition dgt (x y : double) : bool := dlt y x.

Definition dle (x y : double) : bool :=
  match dcompare x y with Some Lt | Some Eq => true | _ => false end.

(** [static_cast<int>]: truncation toward zero; undefined ([None]) for
    NaN, the infinities and values outside the range of [int]. *)
Definition static_cast_int (x : double) : option Z :=
  match x with
  | Fin q =>
      let t := Z.quot (Qnum q) (Zpos (Qden q)) in
      if (- 2 ^ 31 <=? t) && (t <? 2 ^ 31) then Some t else None
  | _ => None
  end.

(** Equality of doubles as values: NaN is the same value as NaN, finite
    values are compared as rationals. *)
Definition deq (x y : double) : Prop :=
  match x, y with
  | NaN, NaN | PInf, PInf | NInf, NInf => True
  | Fin a, Fin b => (a == b)%Q
  | _, _ => False
  end.

End Double.
Export Double.

Declare Scope double_scope.
Delimit Scope double_scope with D.
Infix "+" := dadd : double_scope.
Infix "*" := dmul : double_scope.
Infix "/" := ddiv : double_scope.
Infix "<?" := dlt : double_scope.
Infix ">?" := dgt : double_scope.
Infix "<=?" := dle : double_scope.
Infix "==" := deq (at level 70, no associativity) : double_scope.

(** ** Eigen matrices *)

Module Eigen.

Record Matrix (A : Type) : Type := mkMatrix {
  rows : Z;
  cols : Z;
  coeff : Z -> Z -> A
}.
Arguments mkMatrix {A}.
Arguments rows {A}.
Arguments cols {A}.
Arguments coeff {A}.

(** [m.resize(r, c)]: the dimensions change; Eigen leaves the
    coefficients uninitialised, here they are whatever [m] held. *)
Definition resize {A} (r c : Z) (m : Matrix A) : Matrix A :=
  mkMatrix r c (coeff m).

(** [m.setConstant(v)] *)
Definition setConstant {A} (v : A) (m : Matrix A) : Matrix A :=
  mkMatrix (rows m) (cols m) (fun _ _ => v).

(** [m.unaryExpr(f)] *)
Definition unaryExpr {A B} (f : A -> B) (m : Matrix A) : Matrix B :=
  mkMatrix (rows m) (cols m) (fun i j => f (coeff m i j)).

(** [(m.array() + c).matrix()] *)
Definition addScalar (c : double) (m : Matrix double) : Matrix double :=
  unaryExpr (fun x => dadd x c) m.

(** Assignment through the reference [m(i, j)].  Eigen does not check
    the index in a release build; the callers pass the index computed
    by the indexer of the grid. *)
Definition assign {A} (i j : Z) (v : A) (m : Matrix A) : Matrix A :=
  mkMatrix (rows m) (cols m)
    (fun i' j' => if (i' =? i) && (j' =? j) then v else coeff m i' j').

Definition inside {A} (m : Matrix A) (i j : Z) : Prop :=
  0 <= i < rows m /\ 0 <= j < cols m.

End Eigen.
Import Eigen.

(** ** Collaborators: time, points, transforms, messages *)

Definition Time : Type := Q.
Definition Duration : Type := Q.

(** [a < b] on times and durations. *)
Definition Qltb (a b : Q) : bool := negb (Qle_bool b a).

(** [Duration::fromSec]: undefined for a value that is not finite. *)
Definition fromSec (x : double) : option Duration :=
  match x with Fin q => Some q | _ => None end.

Definition Array2d : Type := (double * double)%type.
Definition Vector2d : Type := (double * double)%type.
Definition Array2i : Type := (Z * Z)%type.

(** [pcl::PointXYZRGB] *)
Record PointXYZRGB : Type := mkPoint {
  px : double; py : double; pz : double;
  pr : Z; pg : Z; pb : Z
}.

(** [pcl::PointCloud<pcl::PointXYZRGB>]: header and points
    ([width * height] is the number of points). *)
Record PointCloud : Type := mkCloud {
  stamp : Time;
  frame_id : string;
  points : list PointXYZRGB
}.

(** [Eigen::Affine3d]: the rows of the linear part and the translation. *)
Record Affine3d : Type := mkAffine {
  linear : (double * double * double) * (double * double * double)
           * (double * double * double);
  translation : double * double * double
}.

Definition setIdentity : Affine3d :=
  let o := Fin 0 in let i := Fin 1 in
  mkAffine ((i, o, o), (o, i, o), (o, o, i)) (o, o, o).

Definition set_translation_x (v : double) (t : Affine3d) : Affine3d :=
  let '(_, ty, tz) := translation t in mkAffine (linear t) (v, ty, tz).

Definition transformPoint (t : Affine3d) (p : PointXYZRGB) : PointXYZRGB :=
  let '((a, b, c), (d, e, f), (g, h, k)) := linear t in
  let '(tx, ty, tz) := translation t in
  let x := px p in let y := py p in let z := pz p in
  mkPoint (a * x + b * y + c * z + tx)%D
          (d * x + e * y + f * z + ty)%D
          (g * x + h * y + k * z + tz)%D
          (pr p) (pg p) (pb p).

(** [starleth_elevation_msg::ElevationMap] *)
Record ElevationMapMsg : Type := mkMsg {
  msg_stamp : Time;
  msg_frame_id : string;
  msg_resolution : double;
  msg_lengthInX : double;
  msg_lengthInY : double;
  msg_elevation : Matrix double;
  msg_variance : Matrix double;
  msg_varianceX : Matrix double;
  msg_varianceY : Matrix double;
  msg_color : Matrix Z
}.

Inductive Severity : Type := Debug | Info | Error.

(** What a member function does to the outside world. *)
Inductive Event : Type :=
| Log (level : Severity) (text : string)
| SendTransform (t : Affine3d) (time : Time) (parent child : string)
| Publish (m : ElevationMapMsg).

Definition isError (e : Event) : bool :=
  match e with Log Error _ => true | _ => false end.

Definition isSendTransform (e : Event) : bool :=
  match e with SendTransform _ _ _ _ => true | _ => false end.

Definition isPublish (e : Event) : bool :=
  match e with Publish _ => true | _ => false end.

(** The ROS parameter server. *)
Record ParamServer : Type := mkParams {
  getDouble : string -> option double;
  getString : string -> option string
}.

Definition param {A} (get : string -> option A) (name : string) (default : A) : A :=
  match get name with Some v => v | None => default end.

(** The ROS environment seen by one callback. *)
Record Env : Type := mkEnv {
  getNumSubscribers : N;
  (** [waitForTransform] followed by [lookupTransform]: the transform,
      or the text of the [TransformException]. *)
  lookupTransform : string -> string -> Time -> Affine3d + string
}.

(** ** The ElevationMap object *)

Record ElevationMap : Type := mkElevationMap {
  pointCloudTopic_ : string;
  parentFrameId_ : string;
  elevationMapFrameId_ : string;
  sensorCutoffDepth_ : double;
  length_ : Array2d;
  resolution_ : double;
  minVariance_ : double;
  maxVariance_ : double;
  maxNoUpdateDuration_ : Duration;
  elevationMapToParentTransform_ : Affine3d;
  elevationData_ : Matrix double;
  varianceData_ : Matrix double;
  varianceDataX_ : Matrix double;
  varianceDataY_ : Matrix double;
  colorData_ : Matrix Z;
  timeOfLastUpdate_ : Time
}.

Definition set_length (v : Array2d) (s : ElevationMap) : ElevationMap :=
  mkElevationMap (pointCloudTopic_ s) (parentFrameId_ s) (elevationMapFrameId_ s)
    (sensorCutoffDepth_ s) v (resolution_ s) (minVariance_ s) (maxVariance_ s)
    (maxNoUpdateDuration_ s) (elevationMapToParentTransform_ s)
    (elevationData_ s) (varianceData_ s) (varianceDataX_ s) (varianceDataY_ s)
    (colorData_ s) (timeOfLastUpdate_ s).

Definition set_elevationData (m : Matrix double) (s : ElevationMap) : ElevationMap :=
  mkElevationMap (pointCloudTopic_ s) (parentFrameId_ s) (elevationMapFrameId_ s)
    (sensorCutoffDepth_ s) (length_ s) (resolution_ s) (minVariance_ s) (maxVariance_ s)
    (maxNoUpdateDuration_ s) (elevationMapToParentTransform_ s)
    m (varianceData_ s) (varianceDataX_ s) (varianceDataY_ s)
    (colorData_ s) (timeOfLastUpdate_ s).

Definition set_varianceData (m : Matrix double) (s : ElevationMap) : ElevationMap :=
  mkElevationMap (pointCloudTopic_ s) (parentFrameId_ s) (elevationMapFrameId_ s)
    (sensorCutoffDepth_ s) (length_ s) (resolution_ s) (minVariance_ s) (maxVariance_ s)
    (maxNoUpdateDuration_ s) (elevationMapToParentTransform_ s)
    (elevationData_ s) m (varianceDataX_ s) (varianceDataY_ s)
    (colorData_ s) (timeOfLastUpdate_ s).

Definition set_varianceDataX (m : Matrix double) (s : ElevationMap) : ElevationMap :=
  mkElevationMap (pointCloudTopic_ s) (parentFrameId_ s) (elevationMapFrameId_ s)
    (sensorCutoffDepth_ s) (length_ s) (resolution_ s) (minVariance_ s) (maxVariance_ s)
    (maxNoUpdateDuration_ s) (elevationMapToParentTransform_ s)
    (elevationData_ s) (varianceData_ s) m (varianceDataY_ s)
    (colorData_ s) (timeOfLastUpdate_ s).

Definition set_varianceDataY (m : Matrix double) (s : ElevationMap) : ElevationMap :=
  mkElevationMap (pointCloudTopic_ s) (parentFrameId_ s) (elevationMapFrameId_ s)
    (sensorCutoffDepth_ s) (length_ s) (resolution_ s) (minVariance_ s) (maxVariance_ s)
    (maxNoUpdateDuration_ s) (elevationMapToParentTransform_ s)
    (elevationData_ s) (varianceData_ s) (varianceDataX_ s) m
    (colorData_ s) (timeOfLastUpdate_ s).

Definition set_colorData (m : Matrix Z) (s : ElevationMap) : ElevationMap :=
  mkElevationMap (pointCloudTopic_ s) (parentFrameId_ s) (elevationMapFrameId_ s)
    (sensorCutoffDepth_ s) (length_ s) (resolution_ s) (minVariance_ s) (maxVariance_ s)
    (maxNoUpdateDuration_ s) (elevationMapToParentTransform_ s)
    (elevationData_ s) (varianceData_ s) (varianceDataX_ s) (varianceDataY_ s)
    m (timeOfLastUpdate_ s).

Definition set_timeOfLastUpdate (t : Time) (s : ElevationMap) : ElevationMap :=
  mkElevationMap (pointCloudTopic_ s) (parentFrameId_ s) (elevationMapFrameId_ s)
    (sensorCutoffDepth_ s) (length_ s) (resolution_ s) (minVariance_ s) (maxVariance_ s)
    (maxNoUpdateDuration_ s) (elevationMapToParentTransform_ s)
    (elevationData_ s) (varianceData_ s) (varianceDataX_ s) (varianceDataY_ s)
    (colorData_ s) t.

(** ** The monad of member functions: state of the object, trace of events *)

Definition M (A : Type) : Type := ElevationMap -> A * ElevationMap * list Event.

Definition ret {A} (a : A) : M A := fun s => (a, s, []).

Definition result {A} (r : A * ElevationMap * list Event) : A := fst (fst r).
Definition state_of {A} (r : A * ElevationMap * list Event) : ElevationMap := snd (fst r).
Definition events {A} (r : A * ElevationMap * list Event) : list Event := snd r.

Definition bind {A B} (c : M A) (k : A -> M B) : M B :=
  fun s =>
    let r1 := c s in
    let r2 := k (result r1) (state_of r1) in
    (result r2, state_of r2, events r1 ++ events r2).

Definition get : M ElevationMap := fun s => (s, s, []).
Definition modify (f : ElevationMap -> ElevationMap) : M unit := fun s => (tt, f s, []).
Definition emit (e : Event) : M unit := fun s => (tt, s, [e]).

Declare Scope m_scope.
Delimit Scope m_scope with M.
Notation "x <- c ;; k" := (bind c (fun x => k))
  (at level 61, c at next level, right associativity) : m_scope.
Notation "c ;; k" := (bind c (fun _ => k))
  (at level 61, right associativity) : m_scope.
Local Open Scope m_scope.
Local Open Scope string_scope.

Definition ROS_DEBUG (text : string) : M unit := emit (Log Debug text).
Definition ROS_INFO (text : string) : M unit := emit (Log Info text).
Definition ROS_ERROR (text : string) : M unit := emit (Log Error text).

(** [if (!ok) ROS_ERROR(text);] *)
Definition unless (ok : bool) (c : M unit) : M unit := if ok then ret tt else c.

(** ** Member functions of [ElevationMap] *)

(** [measurementVariance], the local constant of [addToElevationMap]. *)
Definition measurementVariance : double := Fin (3 # 10).

(** The increment added by [updateProcessNoise]. *)
Definition processNoise : double := Fin (1 # 200).

(** Modelled from the spec: [VarianceClampOperator<double>] is declared in
    the header [ElevationMap.hpp], which is not part of the sources at
    hand.  The specification says the growth step "clamps every variance
    value into [[minVariance, maxVariance]]" and that a variance is NaN
    before the first observation, so the operator is the comparison
    chain below, which lets NaN through. *)
Definition VarianceClampOperator (minVariance maxVariance x : double) : double :=
  if (x <? minVariance)%D then minVariance
  else if (x >? maxVariance)%D then maxVariance
  else x.

(** [readParameters]: [None] when a [ROS_ASSERT] fails. *)
Definition readParameters (ps : ParamServer) (s : ElevationMap)
  : option (bool * ElevationMap) :=
  let pointCloudTopic := param (getString ps) "point_cloud_topic" "/depth_registered/points_throttled" in
  let parentFrameId := param (getString ps) "map_frame_id" "/map" in
  let elevationMapFrameId := param (getString ps) "elevation_map_id" "/elevation_map" in
  let sensorCutoffDepth := param (getDouble ps) "sensor_cutoff_depth" (Fin 3) in
  let lengthX := param (getDouble ps) "length_in_x" (Fin 3) in
  let lengthY := param (getDouble ps) "length_in_y" (Fin 3) in
  let resolution := param (getDouble ps) "resolution" (Fin (1 # 100)) in
  if negb (resolution >? Fin 0)%D then None else
  let minVariance := param (getDouble ps) "min_variance" (Fin (1 # 1000)) in
  if negb (minVariance >? Fin 0)%D then None else
  let maxVariance := param (getDouble ps) "max_variance" (Fin (1 # 2)) in
  if negb (maxVariance >? Fin 0)%D then None else
  let minUpdateRate := param (getDouble ps) "min_update_rate" (Fin 2) in
  if negb (minUpdateRate >? Fin 0)%D then None else
  match fromSec (Fin 1 / minUpdateRate)%D with
  | None => None
  | Some maxNoUpdateDuration =>
      let transform := set_translation_x (Fin (8 # 10)) setIdentity in
      Some (true,
            mkElevationMap pointCloudTopic parentFrameId elevationMapFrameId
              sensorCutoffDepth (lengthX, lengthY) resolution minVariance maxVariance
              maxNoUpdateDuration transform
              (elevationData_ s) (varianceData_ s) (varianceDataX_ s)
              (varianceDataY_ s) (colorData_ s) (timeOfLastUpdate_ s))
  end.

Definition broadcastElevationMapTransform (time : Time) : M bool :=
  s <- get ;;
  emit (SendTransform (elevationMapToParentTransform_ s) time
          (parentFrameId_ s) (elevationMapFrameId_ s)) ;;
  ROS_DEBUG "Published transform for elevation map in parent frame at time %f." ;;
  ret true.

Definition updateProcessNoise (time : Time) : M bool :=
  modify (fun s => set_varianceData (addScalar processNoise (varianceData_ s)) s) ;;
  modify (fun s => set_varianceDataX (addScalar processNoise (varianceDataX_ s)) s) ;;
  modify (fun s => set_varianceDataY (addScalar processNoise (varianceDataY_ s)) s) ;;
  modify (fun s =>
    set_varianceData
      (unaryExpr (VarianceClampOperator (minVariance_ s) (maxVariance_ s))
                 (varianceData_ s)) s) ;;
  ret true.

(** The pass-through filter on [z] with limits [[0, sensorCutoffDepth_]]:
    a point is dropped when a coordinate is not finite or [z] is outside
    the limits. *)
Definition passThrough (cutoff : double) (p : PointXYZRGB) : bool :=
  isfinite (px p) && isfinite (py p) && isfinite (pz p)
  && negb ((pz p <? Fin 0)%D || (pz p >? cutoff)%D).

Definition cleanPointCloud (pointCloud : PointCloud) : M (bool * PointCloud) :=
  s <- get ;;
  let tempPointCloud :=
    mkCloud (stamp pointCloud) (frame_id pointCloud)
            (filter (passThrough (sensorCutoffDepth_ s)) (points pointCloud)) in
  ROS_DEBUG "ElevationMap: cleanPointCloud() reduced point cloud to %i points." ;;
  ret (true, tempPointCloud).

Definition transformPointCloud (env : Env) (pointCloud : PointCloud)
    (targetFrame : string) : M (bool * PointCloud) :=
  let sourceFrame := frame_id pointCloud in
  let timeStamp := stamp pointCloud in
  match lookupTransform env targetFrame sourceFrame timeStamp with
  | inl transform =>
      let pointCloudTransformed := map (transformPoint transform) (points pointCloud) in
      ROS_DEBUG "ElevationMap: Point cloud transformed for time stamp %f." ;;
      ret (true, mkCloud timeStamp targetFrame pointCloudTransformed)
  | inr what =>
      ROS_ERROR what ;;
      ret (false, pointCloud)
  end.

(** [((int)r) << 16 | ((int)g) << 8 | ((int)b)] *)
Definition packColor (p : PointXYZRGB) : Z :=
  Z.lor (Z.lor (Z.shiftl (pr p) 16) (Z.shiftl (pg p) 8)) (pb p).

(** Reads and writes through the references [elevation], [variance],
    [varianceX], [varianceY] and [color] of the loop body: each read is a
    read of the matrix as it is at that moment. *)
Definition read {A} (field : ElevationMap -> Matrix A) (index : Array2i) : M A :=
  s <- get ;; ret (coeff (field s) (fst index) (snd index)).

Definition write_elevation (index : Array2i) (v : double) : M unit :=
  modify (fun s => set_elevationData (assign (fst index) (snd index) v (elevationData_ s)) s).
Definition write_variance (index : Array2i) (v : double) : M unit :=
  modify (fun s => set_varianceData (assign (fst index) (snd index) v (varianceData_ s)) s).
Definition write_varianceX (index : Array2i) (v : double) : M unit :=
  modify (fun s => set_varianceDataX (assign (fst index) (snd index) v (varianceDataX_ s)) s).
Definition write_varianceY (index : Array2i) (v : double) : M unit :=
  modify (fun s => set_varianceDataY (assign (fst index) (snd index) v (varianceDataY_ s)) s).
Definition write_color (index : Array2i) (v : Z) : M unit :=
  modify (fun s => set_colorData (assign (fst index) (snd index) v (colorData_ s)) s).

(** The body of the loop of [addToElevationMap] once the index of the
    point is known. *)
Definition fuse (index : Array2i) (point : PointXYZRGB) : M unit :=
  elevation <- read elevationData_ index ;;
  (if isnan elevation then
     write_elevation index (pz point) ;;
     write_variance index measurementVariance ;;
     write_varianceX index measurementVariance ;;
     write_varianceY index measurementVariance
   else
     variance <- read varianceData_ index ;;
     write_elevation index
       ((variance * pz point + measurementVariance * elevation)
        / (variance + measurementVariance))%D ;;
     variance <- read varianceData_ index ;;
     write_variance index
       ((measurementVariance * variance) / (measurementVariance + variance))%D ;;
     variance <- read varianceData_ index ;;
     write_varianceX index
       ((measurementVariance * variance) / (measurementVariance + variance))%D ;;
     variance <- read varianceData_ index ;;
     write_varianceY index
       ((measurementVariance * variance) / (measurementVariance + variance))%D) ;;
  write_color index (packColor point).

Fixpoint forEach {A} (l : list A) (body : A -> M unit) : M unit :=
  match l with
  | [] => ret tt
  | a :: l' => body a ;; forEach l' body
  end.

Definition publishElevationMap (env : Env) : M bool :=
  if (getNumSubscribers env <? 1)%N then ret false else
  s <- get ;;
  emit (Publish (mkMsg (timeOfLastUpdate_ s) (elevationMapFrameId_ s)
                   (resolution_ s) (fst (length_ s)) (snd (length_ s))
                   (elevationData_ s) (varianceData_ s) (varianceDataX_ s)
                   (varianceDataY_ s) (colorData_ s))) ;;
  ROS_DEBUG "Elevation map has been published." ;;
  ret true.

(** [resize]: [None] when a cast to [int] is undefined or Eigen is asked
    for a negative dimension.  The debug line is the stream message of
    the source, its two numbers left out as the arguments of the other
    log lines are. *)
Definition resize (length : Array2d) (s : ElevationMap)
  : option (bool * ElevationMap * list Event) :=
  let s := set_length length s in
  match static_cast_int (fst (length_ s) / resolution_ s)%D,
        static_cast_int (snd (length_ s) / resolution_ s)%D with
  | Some nRows, Some nCols =>
      if ((nRows <? 0) || (nCols <? 0))%Z then None else
      let s := set_elevationData (Eigen.resize nRows nCols (elevationData_ s)) s in
      let s := set_varianceData (Eigen.resize nRows nCols (varianceData_ s)) s in
      let s := set_varianceDataX (Eigen.resize nRows nCols (varianceDataX_ s)) s in
      let s := set_varianceDataY (Eigen.resize nRows nCols (varianceDataY_ s)) s in
      let s := set_colorData (Eigen.resize nRows nCols (colorData_ s)) s in
      Some (true, s,
            [Log Debug "Elevation map matrix resized to %i rows and %i columns."])
  | _, _ => None
  end.

Definition reset : M bool :=
  modify (fun s => set_elevationData (setConstant NaN (elevationData_ s)) s) ;;
  modify (fun s => set_varianceData (setConstant NaN (varianceData_ s)) s) ;;
  modify (fun s => set_varianceDataX (setConstant NaN (varianceDataX_ s)) s) ;;
  modify (fun s => set_varianceDataY (setConstant NaN (varianceDataY_ s)) s) ;;
  modify (fun s => set_colorData (setConstant 0 (colorData_ s)) s) ;;
  ret true.

Definition setTimeOfLastUpdate (timeOfLastUpdate : Time) : M unit :=
  modify (set_timeOfLastUpdate timeOfLastUpdate).

(** [initialize]; [now] is the reading of the clock. *)
Definition initialize (now : Time) (s : ElevationMap)
  : option (bool * ElevationMap * list Event) :=
  match resize (length_ s) s with
  | None => None
  | Some (_, s1, resized) =>
      let r := (reset ;;
                broadcastElevationMapTransform now ;;
                ROS_INFO "StarlETH elevation map node initialized." ;;
                ret true) s1 in
      Some (result r, state_of r, (resized ++ events r)%list)
  end.

(** The watchdog.  [now] is the reading of the clock (the two readings
    of one call are taken at the same instant). *)
Definition mapUpdateTimerCallback (now : Time) : M unit :=
  s <- get ;;
  if Qltb (now - timeOfLastUpdate_ s)%Q (maxNoUpdateDuration_ s) then ret tt else
  ROS_DEBUG "Elevation map is updated without data from the sensor." ;;
  let time := now in
  ok <- broadcastElevationMapTransform time ;;
  unless ok (ROS_ERROR "ElevationMap: Broadcasting elevation map transform to parent failed.").

(** The period handed to [createTimer] by the constructor. *)
Definition mapUpdateTimerPeriod (s : ElevationMap) : Duration :=
  Qred (maxNoUpdateDuration_ s * (1 # 2))%Q.

Section Indexer.

(** [starleth_elevation_msg::getIndexFromPosition] belongs to another
    package; the functions that call it take it as a parameter. *)
Variable getIndexFromPosition : Vector2d -> Array2d -> double -> option Array2i.

Definition addPoint (point : PointXYZRGB) : M unit :=
  s <- get ;;
  let position := (px point, py point) in
  match getIndexFromPosition position (length_ s) (resolution_ s) with
  | None => ret tt
  | Some index => fuse index point
  end.

Definition addToElevationMap (pointCloud : PointCloud) : M bool :=
  forEach (points pointCloud) addPoint ;;
  ret true.

Section Callback.

(** The callback over the step it runs at line 89; the class runs
    [updateProcessNoise] there. *)
Variable noiseStep : Time -> M bool.

Definition pointCloudCallbackWith (env : Env) (pointCloud : PointCloud) : M unit :=
  ROS_DEBUG "ElevationMap received a point cloud (%i points) for elevation mapping." ;;
  let time := stamp pointCloud in
  ok <- broadcastElevationMapTransform time ;;
  unless ok (ROS_ERROR "ElevationMap: Broadcasting elevation map transform to parent failed.") ;;
  ok <- noiseStep time ;;
  if negb ok then ROS_ERROR "ElevationMap: Updating process noise failed." else
  setTimeOfLastUpdate time ;;
  cleaned <- cleanPointCloud pointCloud ;;
  let pointCloud := snd cleaned in
  elevationMapFrameId <- (s <- get ;; ret (elevationMapFrameId_ s)) ;;
  transformed <- transformPointCloud env pointCloud elevationMapFrameId ;;
  (if negb (fst transformed)
   then ROS_ERROR "ElevationMap: Point cloud transform failed for time stamp %f."
   else
     ok <- addToElevationMap (snd transformed) ;;
     unless ok (ROS_ERROR "ElevationMap: Adding point cloud to elevation map failed.")) ;;
  ok <- publishElevationMap env ;;
  unless ok (ROS_ERROR "ElevationMap: Broadcasting elevation map failed.").

End Callback.

Definition pointCloudCallback : Env -> PointCloud -> M unit :=
  pointCloudCallbackWith updateProcessNoise.

End Indexer.

(** The constructor.  [mem] is the storage of the object before the
    constructor runs: the matrices are default-constructed (no rows, no
    columns), the time of the last update is zero, every other member is
    set by [readParameters].  The result carries the period of the
    watchdog timer. *)
Definition ElevationMap_ctor (ps : ParamServer) (now : Time) (mem : ElevationMap)
  : option (ElevationMap * Duration * list Event) :=
  let s := set_timeOfLastUpdate 0%Q mem in
  let s := set_elevationData (Eigen.resize 0 0 (elevationData_ s)) s in
  let s := set_varianceData (Eigen.resize 0 0 (varianceData_ s)) s in
  let s := set_varianceDataX (Eigen.resize 0 0 (varianceDataX_ s)) s in
  let s := set_varianceDataY (Eigen.resize 0 0 (varianceDataY_ s)) s in
  let s := set_colorData (Eigen.resize 0 0 (colorData_ s)) s in
  match readParameters ps s with
  | None => None
  | Some (_, s1) =>
      let period := mapUpdateTimerPeriod s1 in
      match initialize now s1 with
      | None => None
      | Some (_, s2, ev) =>
          Some (s2, period, Log Info "StarlETH elevation map node started." :: ev)
      end
  end.

(** ** A concrete node, for runs *)

(** Modelled from the spec: [getIndexFromPosition] of the package
    [starleth_elevation_msg] is not part of the sources at hand.  The
    specification says the grid is centred on the origin of its frame and
    that a position maps to a cell only if it falls within
    [[-lengthX/2, lengthX/2) x [-lengthY/2, lengthY/2)]; a position
    outside yields a failure.  The cell is the one the position falls in,
    counted from the corner [(-lengthX/2, -lengthY/2)]. *)
Definition getIndexFromPosition_spec (position : Vector2d) (mapLength : Array2d)
    (resolution : double) : option Array2i :=
  match position, mapLength, resolution with
  | (Fin x, Fin y), (Fin lx, Fin ly), Fin r =>
      if (Qle_bool (- (lx / 2)) x && Qltb x (lx / 2)
          && Qle_bool (- (ly / 2)) y && Qltb y (ly / 2)
          && Qltb 0 r)%Q
      then Some (Qfloor ((x + lx / 2) / r), Qfloor ((y + ly / 2) / r))%Q
      else None
  | _, _, _ => None
  end.

(** A parameter server with no parameter set: every default applies. *)
Definition noParams : ParamServer := mkParams (fun _ => None) (fun _ => None).

(** Some storage for the object before it is constructed. *)
Definition rawMemory : ElevationMap :=
  let junk := mkMatrix 0 0 (fun _ _ => PInf) in
  mkElevationMap "" "" "" NaN (NaN, NaN) NaN NaN NaN 0%Q setIdentity
    junk junk junk junk (mkMatrix 0 0 (fun _ _ => 7)) 0%Q.

(** The node built with the default parameters. *)
Definition defaultNode : ElevationMap :=
  match ElevationMap_ctor noParams 0%Q rawMemory with
  | Some (s, _, _) => s
  | None => rawMemory
  end.

(** An environment: [n] subscribers, the tf lookup answers the identity
    when [tfOk] and fails otherwise. *)
Definition envOf (n : N) (tfOk : bool) : Env :=
  mkEnv n (fun _ _ _ => if tfOk then inl setIdentity else inr "lookup failed").

(** A point observed at the centre of the grid at height [z]. *)
Definition pointAt (z : Q) : PointXYZRGB := mkPoint (Fin 0) (Fin 0) (Fin z) 0 0 0.

(** A batch of [n] copies of one point, stamped [t]. *)
Definition batch (t : Time) (n : nat) (p : PointXYZRGB) : PointCloud :=
  mkCloud t "/camera" (repeat p n).

(** ** Reachable states *)

(** An input of the node: a batch from the sensor or a tick of the
    watchdog timer. *)
Inductive Input : Type :=
| Batch (env : Env) (pointCloud : PointCloud)
| Tick (now : Time).

Section Runs.

Variable getIndexFromPosition : Vector2d -> Array2d -> double -> option Array2i.

Definition handle (i : Input) : M unit :=
  match i with
  | Batch env pointCloud => pointCloudCallback getIndexFromPosition env pointCloud
  | Tick now => mapUpdateTimerCallback now
  end.

Definition run (inputs : list Input) : M unit := forEach inputs handle.

(** The states of a constructed node after any number of inputs. *)
Inductive reachable : ElevationMap -> Prop :=
| reachable_init ps now mem s period ev :
    ElevationMap_ctor ps now mem = Some (s, period, ev) ->
    reachable s
| reachable_step s i :
    reachable s ->
    reachable (state_of (handle i s)).

End Runs.

Definition count (f : Event -> bool) (l : list Event) : nat :=
  List.length (filter f l).

(** ** Predicates of the specification *)

(** [x] lies in [[minVariance, maxVariance]]. *)
Definition inVarianceRange (s : ElevationMap) (x : double) : bool :=
  (minVariance_ s <=? x)%D && (x <=? maxVariance_ s)%D.

(** The variance bounds as the specification words them: every
    initialized value of the three variance channels is in range. *)
Definition varianceBounds (s : ElevationMap) : Prop :=
  forall i j, inside (varianceData_ s) i j ->
    forall m, In m [varianceData_ s; varianceDataX_ s; varianceDataY_ s] ->
      isnan (coeff m i j) = false -> inVarianceRange s (coeff m i j) = true.

(** The grids of [varianceX] and [varianceY] hold the same values. *)
Definition sameXY (s : ElevationMap) : Prop :=
  rows (varianceDataX_ s) = rows (varianceDataY_ s)
  /\ cols (varianceDataX_ s) = cols (varianceDataY_ s)
  /\ forall i j, coeff (varianceDataX_ s) i j = coeff (varianceDataY_ s) i j.

(** The five channels of the grid. *)
Definition grid (s : ElevationMap) :=
  (elevationData_ s, varianceData_ s, varianceDataX_ s, varianceDataY_ s, colorData_ s).

(** The object with other variance bounds. *)
Definition set_varianceBounds (lo hi : double) (s : ElevationMap) : ElevationMap :=
  mkElevationMap (pointCloudTopic_ s) (parentFrameId_ s) (elevationMapFrameId_ s)
    (sensorCutoffDepth_ s) (length_ s) (resolution_ s) lo hi
    (maxNoUpdateDuration_ s) (elevationMapToParentTransform_ s)
    (elevationData_ s) (varianceData_ s) (varianceDataX_ s) (varianceDataY_ s)
    (colorData_ s) (timeOfLastUpdate_ s).

(** Two objects with the same grid and the same geometry. *)
Definition sameGrid (s s' : ElevationMap) : Prop :=
  length_ s = length_ s' /\ resolution_ s = resolution_ s' /\ grid s = grid s'.

(** The cell at the centre of the grid of [defaultNode]. *)
Definition centre : Array2i := (150, 150).


(** The points that reach the fusion loop of a batch when the lookup
    answers [t]. *)
Definition surviving (s : ElevationMap) (pointCloud : PointCloud) (t : Affine3d) :=
  map (transformPoint t) (filter (passThrough (sensorCutoffDepth_ s)) (points pointCloud)).

(** The default node after a first batch of one point at height 1: the
    cell at the centre has been observed once. *)
Definition observedNode : ElevationMap :=
  state_of (pointCloudCallback getIndexFromPosition_spec (envOf 1%N true)
              (batch 1%Q 1 (pointAt 1)) defaultNode).

(** The state after [k] fusions of the point [p]. *)
Definition fused (G : Vector2d -> Array2d -> double -> option Array2i)
    (p : PointXYZRGB) (k : nat) (s : ElevationMap) : ElevationMap :=
  state_of (addToElevationMap G (batch 0%Q k p) s).

(** The default node after one batch of 301 points that all fall into
    the cell at the centre. *)
Definition crowdedNode : ElevationMap :=
  state_of (handle getIndexFromPosition_spec
              (Batch (envOf 1%N true) (batch 1%Q 301 (pointAt 1))) defaultNode).

(** A batch is treated as an error when a line of level [Error] is
    logged while it is handled. *)
Definition loggedError {A} (r : A * ElevationMap * list Event) : bool :=
  existsb isError (events r).

(** Parameters of a map of 1 m by 1 m with cells of 0.1 m. *)
Definition smallParams : ParamServer :=
  mkParams (fun name =>
              if (name =? "length_in_x")%string then Some (Fin 1)
              else if (name =? "length_in_y")%string then Some (Fin 1)
              else if (name =? "resolution")%string then Some (Fin (1 # 10))
              else None)
           (fun _ => None).

(** The object once [readParameters] has read [smallParams]. *)
Definition smallConfigured : ElevationMap :=
  match readParameters smallParams rawMemory with
  | Some (_, s) => s
  | None => rawMemory
  end.



(** The default node after a first observation of the cell at the
    centre and [n] further batches without points. *)
Definition agedNode (n : nat) : ElevationMap :=
  state_of (run getIndexFromPosition_spec
              (repeat (Batch (envOf 1%N true) (batch 2%Q 0 (pointAt 1))) n)
              observedNode).

(** ** Views of the object used by the further properties *)

(** The members set by [readParameters]. *)
Definition config (s : ElevationMap) :=
  (pointCloudTopic_ s, parentFrameId_ s, elevationMapFrameId_ s,
   sensorCutoffDepth_ s, length_ s, resolution_ s, minVariance_ s, maxVariance_ s,
   maxNoUpdateDuration_ s, elevationMapToParentTransform_ s).

(** The dimensions of a matrix and of the five channels. *)
Definition dim {A} (m : Matrix A) : Z * Z := (rows m, cols m).

Definition dims (s : ElevationMap) :=
  (dim (elevationData_ s), dim (varianceData_ s), dim (varianceDataX_ s),
   dim (varianceDataY_ s), dim (colorData_ s)).

(** The five values of the cell [(i, j)]. *)
Definition cell (s : ElevationMap) (i j : Z) :=
  (coeff (elevationData_ s) i j, coeff (varianceData_ s) i j,
   coeff (varianceDataX_ s) i j, coeff (varianceDataY_ s) i j,
   coeff (colorData_ s) i j).

(** The object after [n] growth steps in a row. *)
Definition grown (n : nat) (s : ElevationMap) : ElevationMap :=
  Nat.iter n (fun s' => state_of (updateProcessNoise 0%Q s')) s.

(** The test of the watchdog: the tick at [now] is stale. *)
Definition staleAt (s : ElevationMap) (now : Time) : bool :=
  negb (Qltb (now - timeOfLastUpdate_ s)%Q (maxNoUpdateDuration_ s)).

(** A point of the given colour outside the grid of [defaultNode]. *)
Definition farPoint : PointXYZRGB := mkPoint (Fin 5) (Fin 0) (Fin 1) 10 20 30.

(** A point of the given colour at the centre of the grid, height 2. *)
Definition redPoint : PointXYZRGB := mkPoint (Fin 0) (Fin 0) (Fin 2) 255 1 2.

(** A point in the cell next to the centre. *)
Definition sidePoint : PointXYZRGB := mkPoint (Fin (1 # 100)) (Fin 0) (Fin 3) 0 0 7.

(** Parameters with a minimum variance above the maximum variance. *)
Definition invertedParams : ParamServer :=
  mkParams (fun name =>
              if (name =? "min_variance")%string then Some (Fin 1)
              else if (name =? "max_variance")%string then Some (Fin (1 # 2))
              else None)
           (fun _ => None).

(** * Properties *)

Local Open Scope list_scope.

(** ** The monad *)

Lemma result_bind {A B} (c : M A) (k : A -> M B) s :
  result (bind c k s) = result (k (result (c s)) (state_of (c s))).
Proof. reflexivity. Qed.

Lemma state_bind {A B} (c : M A) (k : A -> M B) s :
  state_of (bind c k s) = state_of (k (result (c s)) (state_of (c s))).
Proof. reflexivity. Qed.

Lemma events_bind {A B} (c : M A) (k : A -> M B) s :
  events (bind c k s) = events (c s) ++ events (k (result (c s)) (state_of (c s))).
Proof. reflexivity. Qed.

Lemma bind_run {A B} (c : M A) (k : A -> M B) s a s1 e1 :
  c s = (a, s1, e1) ->
  bind c k s = (result (k a s1), state_of (k a s1), e1 ++ events (k a s1)).
Proof. intro H. unfold bind. rewrite H. reflexivity. Qed.

Lemma forEach_cons {A} (a : A) l body s :
  state_of (forEach (a :: l) body s) = state_of (forEach l body (state_of (body a s))).
Proof. reflexivity. Qed.

Lemma forEach_app {A} (l1 l2 : list A) body s :
  state_of (forEach (l1 ++ l2) body s)
  = state_of (forEach l2 body (state_of (forEach l1 body s))).
Proof.
  revert s; induction l1 as [|a l1 IH]; intro s.
  - reflexivity.
  - rewrite <- app_comm_cons, !forEach_cons. apply IH.
Qed.

(** A property of the state kept by the body is kept by the loop. *)
Lemma forEach_invariant {A} (P : ElevationMap -> Prop) (body : A -> M unit) :
  (forall a s, P s -> P (state_of (body a s))) ->
  forall l s, P s -> P (state_of (forEach l body s)).
Proof.
  intros Hbody l; induction l as [|a l IH]; intros s Hs.
  - exact Hs.
  - rewrite forEach_cons. apply IH, Hbody, Hs.
Qed.

Lemma forEach_silent {A} (body : A -> M unit) :
  (forall a s, events (body a s) = []) ->
  forall l s, events (forEach l body s) = [].
Proof.
  intros Hbody l; induction l as [|a l IH]; intro s.
  - reflexivity.
  - simpl forEach. rewrite events_bind, Hbody, IH. reflexivity.
Qed.

(** ** Matrices *)

Lemma coeff_assign_same {A} i j (v : A) m : coeff (assign i j v m) i j = v.
Proof. simpl. now rewrite !Z.eqb_refl. Qed.

Lemma coeff_assign_other {A} i j i' j' (v : A) m :
  (i', j') <> (i, j) -> coeff (assign i j v m) i' j' = coeff m i' j'.
Proof.
  intro H. simpl.
  destruct (Z.eqb_spec i' i), (Z.eqb_spec j' j); simpl; try reflexivity.
  subst. now elim H.
Qed.

(** ** Doubles *)

Lemma dlt_Fin a b : (Fin a <? Fin b)%D = true <-> (a < b)%Q.
Proof.
  unfold dlt; simpl. rewrite Qlt_alt.
  destruct (a ?= b)%Q; split; congruence.
Qed.

Lemma dle_Fin a b : (Fin a <=? Fin b)%D = true <-> (a <= b)%Q.
Proof.
  unfold dle; simpl. rewrite Qle_alt.
  destruct (a ?= b)%Q; split; congruence.
Qed.

Lemma dlt_false_Fin a b : (Fin a <? Fin b)%D = false <-> (b <= a)%Q.
Proof.
  rewrite <- not_true_iff_false, dlt_Fin. split; [apply Qnot_lt_le | apply Qle_not_lt].
Qed.

Lemma is_zero_Fin q : is_zero (Fin q) = false <-> ~ (q == 0)%Q.
Proof.
  simpl. rewrite Qeq_alt. destruct (q ?= 0)%Q; split; congruence.
Qed.

Lemma ddiv_Fin a b : ~ (b == 0)%Q -> (Fin a / Fin b)%D = Fin (Qred (a / b)).
Proof.
  intro H. apply is_zero_Fin in H. unfold ddiv. now rewrite H.
Qed.

Lemma deq_refl x : (x == x)%D.
Proof. destruct x; simpl; auto. reflexivity. Qed.

Lemma Qltb_lt a b : Qltb a b = true <-> (a < b)%Q.
Proof.
  unfold Qltb. rewrite negb_true_iff, <- not_true_iff_false, Qle_bool_iff.
  split; [apply Qnot_le_lt | apply Qlt_not_le].
Qed.

Lemma Qltb_ge a b : Qltb a b = false <-> (b <= a)%Q.
Proof.
  unfold Qltb. rewrite negb_false_iff, Qle_bool_iff. reflexivity.
Qed.

(** ** The fusion of one point *)

Section Fusion.

Variable G : Vector2d -> Array2d -> double -> option Array2i.

Lemma addToElevationMap_state pointCloud s :
  state_of (addToElevationMap G pointCloud s)
  = state_of (forEach (points pointCloud) (addPoint G) s).
Proof. reflexivity. Qed.

Lemma fuse_silent index point s : events (fuse index point s) = [].
Proof.
  unfold fuse. rewrite events_bind. cbn.
  destruct (isnan _); reflexivity.
Qed.

Lemma addPoint_silent point s : events (addPoint G point s) = [].
Proof.
  unfold addPoint. rewrite events_bind. cbn.
  destruct (G _ _ _) as [index|]; [|reflexivity].
  apply fuse_silent.
Qed.

Lemma addPoint_state point s :
  state_of (addPoint G point s)
  = match G (px point, py point) (length_ s) (resolution_ s) with
    | Some index => state_of (fuse index point s)
    | None => s
    end.
Proof.
  unfold addPoint. rewrite state_bind; cbn.
  destruct (G _ _ _); reflexivity.
Qed.

(** What [fuse] leaves in the touched cell, in the two branches. *)
Lemma fuse_cold i j point s :
  isnan (coeff (elevationData_ s) i j) = true ->
  let s' := state_of (fuse (i, j) point s) in
  coeff (elevationData_ s') i j = pz point
  /\ coeff (varianceData_ s') i j = measurementVariance
  /\ coeff (varianceDataX_ s') i j = measurementVariance
  /\ coeff (varianceDataY_ s') i j = measurementVariance
  /\ coeff (colorData_ s') i j = packColor point.
Proof.
  intro H. unfold fuse. cbn. rewrite H; cbn.
  now rewrite !Z.eqb_refl.
Qed.

Lemma fuse_update i j point s :
  isnan (coeff (elevationData_ s) i j) = false ->
  let mv := measurementVariance in
  let e := coeff (elevationData_ s) i j in
  let v := coeff (varianceData_ s) i j in
  let v' := ((mv * v) / (mv + v))%D in
  let s' := state_of (fuse (i, j) point s) in
  coeff (elevationData_ s') i j = ((v * pz point + mv * e) / (v + mv))%D
  /\ coeff (varianceData_ s') i j = v'
  /\ coeff (varianceDataX_ s') i j = ((mv * v') / (mv + v'))%D
  /\ coeff (varianceDataY_ s') i j = ((mv * v') / (mv + v'))%D
  /\ coeff (colorData_ s') i j = packColor point.
Proof.
  intro H. unfold fuse. cbn -[dadd dmul ddiv measurementVariance].
  rewrite H; cbn -[dadd dmul ddiv measurementVariance].
  now rewrite !Z.eqb_refl.
Qed.

(** [fuse] leaves the configuration alone. *)
Lemma fuse_config index point s :
  let s' := state_of (fuse index point s) in
  length_ s' = length_ s /\ resolution_ s' = resolution_ s
  /\ minVariance_ s' = minVariance_ s /\ maxVariance_ s' = maxVariance_ s
  /\ timeOfLastUpdate_ s' = timeOfLastUpdate_ s
  /\ maxNoUpdateDuration_ s' = maxNoUpdateDuration_ s.
Proof.
  unfold fuse. cbn.
  destruct (isnan _); cbn; repeat split.
Qed.

End Fusion.

(** ** The sensor callback, step by step *)

Section CallbackSteps.

Variable G : Vector2d -> Array2d -> double -> option Array2i.

Lemma addToElevationMap_silent pointCloud s :
  events (addToElevationMap G pointCloud s) = [].
Proof.
  unfold addToElevationMap. rewrite events_bind.
  rewrite (forEach_silent _ (addPoint_silent G)). reflexivity.
Qed.

Lemma addToElevationMap_result pointCloud s :
  result (addToElevationMap G pointCloud s) = true.
Proof. reflexivity. Qed.

Lemma updateProcessNoise_result time s : result (updateProcessNoise time s) = true.
Proof. reflexivity. Qed.

Lemma updateProcessNoise_silent time s : events (updateProcessNoise time s) = [].
Proof. reflexivity. Qed.

Lemma unless_state ok text s : state_of (unless ok (ROS_ERROR text) s) = s.
Proof. now destruct ok. Qed.

Lemma unless_events ok text s :
  events (unless ok (ROS_ERROR text) s) = if ok then [] else [Log Error text].
Proof. now destruct ok. Qed.

Lemma publishElevationMap_state env s : state_of (publishElevationMap env s) = s.
Proof. unfold publishElevationMap. now destruct (_ <? _)%N. Qed.

Lemma publishElevationMap_result env s :
  result (publishElevationMap env s) = negb (getNumSubscribers env <? 1)%N.
Proof. unfold publishElevationMap. now destruct (_ <? _)%N. Qed.

Lemma broadcastElevationMapTransform_run time s :
  broadcastElevationMapTransform time s
  = (true, s,
     [SendTransform (elevationMapToParentTransform_ s) time
        (parentFrameId_ s) (elevationMapFrameId_ s);
      Log Debug "Published transform for elevation map in parent frame at time %f."]).
Proof. reflexivity. Qed.

(** The state after a batch: noise growth, the time stamp, then the
    fusion of the surviving points when the lookup succeeds. *)
Lemma pointCloudCallback_state env pointCloud s :
  let time := stamp pointCloud in
  let s1 := set_timeOfLastUpdate time (state_of (updateProcessNoise time s)) in
  state_of (pointCloudCallback G env pointCloud s)
  = match lookupTransform env (elevationMapFrameId_ s) (frame_id pointCloud) time with
    | inl t => state_of (forEach (surviving s pointCloud t) (addPoint G) s1)
    | inr _ => s1
    end.
Proof.
  unfold pointCloudCallback, pointCloudCallbackWith, surviving.
  cbn -[forEach publishElevationMap unless].
  unfold transformPointCloud; cbn -[forEach publishElevationMap unless].
  destruct (lookupTransform _ _ _ _) as [t|what];
    cbn -[forEach publishElevationMap unless];
    now rewrite unless_state, publishElevationMap_state.
Qed.

(** The events of a batch. *)
Lemma pointCloudCallback_events env pointCloud s :
  let time := stamp pointCloud in
  events (pointCloudCallback G env pointCloud s)
  = [Log Debug "ElevationMap received a point cloud (%i points) for elevation mapping.";
     SendTransform (elevationMapToParentTransform_ s) time
       (parentFrameId_ s) (elevationMapFrameId_ s);
     Log Debug "Published transform for elevation map in parent frame at time %f.";
     Log Debug "ElevationMap: cleanPointCloud() reduced point cloud to %i points."]
    ++ match lookupTransform env (elevationMapFrameId_ s) (frame_id pointCloud) time with
       | inl _ => [Log Debug "ElevationMap: Point cloud transformed for time stamp %f."]
       | inr what =>
           [Log Error what;
            Log Error "ElevationMap: Point cloud transform failed for time stamp %f."]
       end
    ++ events (publishElevationMap env (state_of (pointCloudCallback G env pointCloud s)))
    ++ (if (getNumSubscribers env <? 1)%N
        then [Log Error "ElevationMap: Broadcasting elevation map failed."] else []).
Proof.
  intro time.
  rewrite (pointCloudCallback_state env pointCloud s).
  unfold pointCloudCallback, pointCloudCallbackWith, surviving.
  cbn -[forEach publishElevationMap unless addToElevationMap].
  unfold transformPointCloud; cbn -[forEach publishElevationMap unless addToElevationMap].
  fold time.
  destruct (lookupTransform _ _ _ _) as [t|what];
    cbn -[forEach publishElevationMap unless addToElevationMap];
    rewrite ?addToElevationMap_silent, unless_events, publishElevationMap_result;
    cbn -[forEach publishElevationMap unless addToElevationMap];
    destruct (_ <? _)%N; reflexivity.
Qed.

End CallbackSteps.

(** ** Cold start and update of a cell *)

(** C3.  Fusing a first observation into a cell whose elevation is NaN
    sets the elevation of the cell to the elevation of the observation
    and the three variance channels to [measurementVariance], the
    constant 0.3. *)
Theorem cold_start_fusion G pointCloud point i j s :
  points pointCloud = [point] ->
  G (px point, py point) (length_ s) (resolution_ s) = Some (i, j) ->
  isnan (coeff (elevationData_ s) i j) = true ->
  let s' := state_of (addToElevationMap G pointCloud s) in
  measurementVariance = Fin (3 # 10)
  /\ coeff (elevationData_ s') i j = pz point
  /\ coeff (varianceData_ s') i j = Fin (3 # 10)
  /\ coeff (varianceDataX_ s') i j = Fin (3 # 10)
  /\ coeff (varianceDataY_ s') i j = Fin (3 # 10).
Proof.
  intros Hpts Hidx Hnan s'. subst s'.
  rewrite addToElevationMap_state, Hpts, forEach_cons.
  change (state_of (forEach [] (addPoint G) ?x)) with x.
  rewrite addPoint_state, Hidx.
  destruct (fuse_cold i j point s Hnan) as (He & Hv & Hx & Hy & _).
  repeat split; assumption.
Qed.

Lemma cold_start_fusion_witness :
  let G := getIndexFromPosition_spec in
  let s' := state_of (addToElevationMap G (batch 0%Q 1 (pointAt 1)) defaultNode) in
  G (Fin 0, Fin 0) (length_ defaultNode) (resolution_ defaultNode) = Some centre
  /\ isnan (coeff (elevationData_ defaultNode) 150 150) = true
  /\ coeff (elevationData_ s') 150 150 = Fin 1
  /\ coeff (varianceData_ s') 150 150 = Fin (3 # 10)
  /\ coeff (varianceDataX_ s') 150 150 = Fin (3 # 10)
  /\ coeff (varianceDataY_ s') 150 150 = Fin (3 # 10).
Proof.
  intros G s'.
  assert (Hidx : G (Fin 0, Fin 0) (length_ defaultNode) (resolution_ defaultNode)
                 = Some centre) by (vm_compute; reflexivity).
  assert (Hnan : isnan (coeff (elevationData_ defaultNode) 150 150) = true)
    by (vm_compute; reflexivity).
  split; [exact Hidx|]. split; [exact Hnan|].
  exact (proj2 (cold_start_fusion G (batch 0%Q 1 (pointAt 1)) (pointAt 1) 150 150
                  defaultNode eq_refl Hidx Hnan)).
Defined.

(** C2.  In the branch of an already observed cell, [varianceX] and
    [varianceY] are computed from the variance this very step has just
    written: with [mv] the measurement variance and [v] the variance of
    the cell before the step, the cell ends with the variance
    [v' = mv*v/(mv+v)] and with [varianceX = varianceY = mv*v'/(mv+v')]. *)
Theorem update_uses_updated_variance G pointCloud point i j s :
  points pointCloud = [point] ->
  G (px point, py point) (length_ s) (resolution_ s) = Some (i, j) ->
  isnan (coeff (elevationData_ s) i j) = false ->
  let mv := measurementVariance in
  let v := coeff (varianceData_ s) i j in
  let v' := ((mv * v) / (mv + v))%D in
  let s' := state_of (addToElevationMap G pointCloud s) in
  coeff (varianceData_ s') i j = v'
  /\ coeff (varianceDataX_ s') i j = ((mv * v') / (mv + v'))%D
  /\ coeff (varianceDataY_ s') i j = ((mv * v') / (mv + v'))%D.
Proof.
  intros Hpts Hidx Hobs mv v v' s'. subst s'.
  rewrite addToElevationMap_state, Hpts, forEach_cons.
  change (state_of (forEach [] (addPoint G) ?x)) with x.
  rewrite addPoint_state, Hidx.
  destruct (fuse_update i j point s Hobs) as (_ & Hv & Hx & Hy & _).
  repeat split; assumption.
Qed.

Lemma update_uses_updated_variance_witness :
  let G := getIndexFromPosition_spec in
  let s := observedNode in
  let s' := state_of (addToElevationMap G (batch 2%Q 1 (pointAt 1)) s) in
  isnan (coeff (elevationData_ s) 150 150) = false
  /\ coeff (varianceData_ s) 150 150 = Fin (3 # 10)
  /\ coeff (varianceData_ s') 150 150 = Fin (3 # 20)
  /\ coeff (varianceDataX_ s') 150 150 = Fin (1 # 10)
  /\ coeff (varianceDataY_ s') 150 150 = Fin (1 # 10).
Proof.
  intros G s s'.
  assert (Hidx : G (Fin 0, Fin 0) (length_ s) (resolution_ s) = Some centre)
    by (vm_compute; reflexivity).
  assert (Hobs : isnan (coeff (elevationData_ s) 150 150) = false)
    by (vm_compute; reflexivity).
  assert (Hv : coeff (varianceData_ s) 150 150 = Fin (3 # 10))
    by (vm_compute; reflexivity).
  split; [exact Hobs|]. split; [exact Hv|].
  pose proof (update_uses_updated_variance G (batch 2%Q 1 (pointAt 1)) (pointAt 1)
                150 150 s eq_refl Hidx Hobs) as H.
  cbv zeta in H. rewrite Hv in H. exact H.
Defined.

(** ** Repeated fusion of one observation *)

Lemma addPoint_config G p s :
  let s' := state_of (addPoint G p s) in
  length_ s' = length_ s /\ resolution_ s' = resolution_ s.
Proof.
  cbv zeta. rewrite addPoint_state.
  destruct (G _ _ _) as [index|]; [|now split].
  destruct (fuse_config index p s) as (Hl & Hr & _). now split.
Qed.

Lemma fused_S G p k s : fused G p (S k) s = state_of (addPoint G p (fused G p k s)).
Proof.
  unfold fused. rewrite !addToElevationMap_state. simpl points.
  rewrite repeat_cons, forEach_app. reflexivity.
Qed.

Lemma fused_config G p k s :
  length_ (fused G p k s) = length_ s /\ resolution_ (fused G p k s) = resolution_ s.
Proof.
  induction k as [|k [IHl IHr]]; [now split|].
  rewrite fused_S.
  destruct (addPoint_config G p (fused G p k s)) as [Hl Hr].
  split; congruence.
Qed.

(** The fusion reads the grid, the lengths and the resolution, and
    nothing else of the object. *)
Lemma addPoint_sameGrid G p s s' :
  sameGrid s s' -> sameGrid (state_of (addPoint G p s)) (state_of (addPoint G p s')).
Proof.
  intros (Hl & Hr & Hg). rewrite !addPoint_state, Hl, Hr.
  destruct (G _ _ _) as [index|]; [|repeat split; assumption].
  unfold grid in Hg. injection Hg as He Hv Hx Hy Hc.
  destruct s, s'. cbn in Hl, Hr, He, Hv, Hx, Hy, Hc. subst.
  unfold sameGrid, grid, fuse.
  cbn -[dadd dmul ddiv measurementVariance assign].
  destruct (isnan _); cbn -[dadd dmul ddiv measurementVariance assign];
    repeat split.
Qed.

Lemma fused_sameGrid G p k s s' :
  sameGrid s s' -> sameGrid (fused G p k s) (fused G p k s').
Proof.
  intro H. induction k as [|k IH]; [exact H|].
  rewrite !fused_S. apply addPoint_sameGrid, IH.
Qed.

(** C4, as the code has it.  For every cell and every observation,
    repeated fusion of that one observation follows the update of the
    source step by step, in double arithmetic: a cell that is unobserved
    gets the elevation of the observation and the variance
    [measurementVariance]; a cell that is observed, with elevation [e]
    and variance [v], gets the elevation [(v*z + mv*e)/(v + mv)] and the
    variance [mv*v/(mv + v)].  The fusion never reads [minVariance] or
    [maxVariance]: the cell after any number of fusions is the same
    whatever these bounds are, so nothing keeps its variance at or above
    [minVariance]. *)
Theorem repeated_fusion G p i j s n lo hi :
  G (px p, py p) (length_ s) (resolution_ s) = Some (i, j) ->
  let mv := measurementVariance in
  let e k := coeff (elevationData_ (fused G p k s)) i j in
  let v k := coeff (varianceData_ (fused G p k s)) i j in
  (isnan (e n) = true -> e (S n) = pz p /\ v (S n) = mv)
  /\ (isnan (e n) = false ->
      e (S n) = ((v n * pz p + mv * e n) / (v n + mv))%D
      /\ v (S n) = ((mv * v n) / (mv + v n))%D)
  /\ cell (fused G p n (set_varianceBounds lo hi s)) i j = cell (fused G p n s) i j.
Proof.
  intros Hidx mv e v. subst e v. cbv beta.
  destruct (fused_config G p n s) as [Hl Hr].
  assert (Hidx' : G (px p, py p) (length_ (fused G p n s)) (resolution_ (fused G p n s))
                  = Some (i, j)) by (rewrite Hl, Hr; exact Hidx).
  rewrite fused_S, addPoint_state, Hidx'.
  split; [|split].
  - intro Hnan. destruct (fuse_cold i j p _ Hnan) as (He & Hv & _). now split.
  - intro Hobs. destruct (fuse_update i j p _ Hobs) as (He & Hv & _). now split.
  - assert (H : sameGrid (set_varianceBounds lo hi s) s) by (repeat split).
    destruct (fused_sameGrid G p n _ _ H) as (_ & _ & Hg).
    unfold grid in Hg. injection Hg as He Hv Hx Hy Hc.
    unfold cell. now rewrite He, Hv, Hx, Hy, Hc.
Qed.

Lemma repeated_fusion_witness :
  let G := getIndexFromPosition_spec in
  let p := pointAt 1 in
  let e k := coeff (elevationData_ (fused G p k defaultNode)) 150 150 in
  let v k := coeff (varianceData_ (fused G p k defaultNode)) 150 150 in
  G (px p, py p) (length_ defaultNode) (resolution_ defaultNode) = Some centre
  /\ isnan (e 0%nat) = true /\ e 1%nat = Fin 1 /\ v 1%nat = measurementVariance
  /\ isnan (e 1%nat) = false
  /\ e 2%nat = ((v 1%nat * Fin 1 + measurementVariance * e 1%nat)
                / (v 1%nat + measurementVariance))%D
  /\ v 2%nat = ((measurementVariance * v 1%nat) / (measurementVariance + v 1%nat))%D
  /\ cell (fused G p 301 (set_varianceBounds (Fin 1) (Fin 2) defaultNode)) 150 150
     = cell (fused G p 301 defaultNode) 150 150.
Proof.
  intros G p e v.
  assert (Hidx : G (px p, py p) (length_ defaultNode) (resolution_ defaultNode)
                 = Some centre) by (vm_compute; reflexivity).
  assert (H0 : isnan (e 0%nat) = true) by (vm_compute; reflexivity).
  assert (H1 : isnan (e 1%nat) = false) by (vm_compute; reflexivity).
  split; [exact Hidx|]. split; [exact H0|].
  destruct (repeated_fusion G p 150 150 defaultNode 0 (Fin 1) (Fin 2) Hidx)
    as (Hcold & _ & _).
  destruct (Hcold H0) as [He1 Hv1].
  split; [exact He1|]. split; [exact Hv1|]. split; [exact H1|].
  destruct (repeated_fusion G p 150 150 defaultNode 1 (Fin 1) (Fin 2) Hidx)
    as (_ & Hupd & _).
  destruct (Hupd H1) as [He2 Hv2].
  split; [exact He2|]. split; [exact Hv2|].
  exact (proj2 (proj2 (repeated_fusion G p 150 150 defaultNode 301 (Fin 1) (Fin 2) Hidx))).
Defined.

(** C4, counterexample.  With the default parameters ([minVariance] =
    0.001), 301 fusions of the same observation into one cell leave its
    variance at 0.3/301, below [minVariance]. *)
Lemma repeated_fusion_below_minVariance :
  let s := fused getIndexFromPosition_spec (pointAt 1) 301 defaultNode in
  minVariance_ s = Fin (1 # 1000)
  /\ coeff (elevationData_ s) 150 150 = Fin 1
  /\ coeff (varianceData_ s) 150 150 = Fin (3 # 3010)
  /\ (coeff (varianceData_ s) 150 150 <? minVariance_ s)%D = true.
Proof. vm_compute. repeat split; reflexivity. Qed.

(** ** Process noise *)

Lemma dle_not_nan x y : (x <=? y)%D = true -> isnan x = false /\ isnan y = false.
Proof. destruct x, y; simpl; intro H; split; (reflexivity || discriminate). Qed.

Lemma dle_refl x : isnan x = false -> (x <=? x)%D = true.
Proof.
  destruct x; simpl; intro H; try reflexivity; try discriminate.
  apply dle_Fin. apply Qle_refl.
Qed.

Lemma dlt_false_dle x y :
  isnan x = false -> isnan y = false -> (x <? y)%D = false -> (y <=? x)%D = true.
Proof.
  destruct x as [| | |a], y as [| | |b]; simpl; intros Hx Hy H;
    try reflexivity; try discriminate.
  apply dle_Fin. now apply dlt_false_Fin.
Qed.

(** The clamp returns a value of the range, or the NaN it was given. *)
Lemma VarianceClampOperator_range lo hi x :
  (lo <=? hi)%D = true ->
  isnan (VarianceClampOperator lo hi x) = false ->
  (lo <=? VarianceClampOperator lo hi x)%D = true
  /\ (VarianceClampOperator lo hi x <=? hi)%D = true.
Proof.
  intros Hle. destruct (dle_not_nan _ _ Hle) as [Hlo Hhi].
  unfold VarianceClampOperator, dgt.
  destruct (x <? lo)%D eqn:E1.
  - intros _. split; [now apply dle_refl | exact Hle].
  - destruct (hi <? x)%D eqn:E2.
    + intros _. split; [exact Hle | now apply dle_refl].
    + intro Hx. split; now apply dlt_false_dle.
Qed.

Lemma VarianceClampOperator_NaN lo hi : VarianceClampOperator lo hi NaN = NaN.
Proof. unfold VarianceClampOperator, dgt. now destruct lo, hi. Qed.

(** C1, as the code has it.  Right after the growth step every
    initialized value of the [variance] channel lies in
    [[minVariance, maxVariance]]: the step adds the process noise and
    clamps that channel into the range. *)
Theorem growth_clamps_variance time s i j :
  (minVariance_ s <=? maxVariance_ s)%D = true ->
  let s' := state_of (updateProcessNoise time s) in
  let v := coeff (varianceData_ s') i j in
  v = VarianceClampOperator (minVariance_ s) (maxVariance_ s)
        (coeff (varianceData_ s) i j + Fin (1 # 200))%D
  /\ (isnan v = false -> inVarianceRange s' v = true).
Proof.
  intros Hle s' v. split; [reflexivity|].
  intro Hv. unfold inVarianceRange.
  apply andb_true_intro.
  exact (VarianceClampOperator_range _ _ _ Hle Hv).
Qed.

Lemma growth_clamps_variance_witness :
  let s' := state_of (updateProcessNoise 2%Q observedNode) in
  (minVariance_ observedNode <=? maxVariance_ observedNode)%D = true
  /\ coeff (varianceData_ s') 150 150 = Fin (61 # 200)
  /\ inVarianceRange s' (coeff (varianceData_ s') 150 150) = true.
Proof.
  intro s'.
  assert (Hle : (minVariance_ observedNode <=? maxVariance_ observedNode)%D = true)
    by (vm_compute; reflexivity).
  split; [exact Hle|].
  split; [vm_compute; reflexivity|].
  apply (proj2 (growth_clamps_variance 2%Q observedNode 150 150 Hle)).
  vm_compute; reflexivity.
Defined.

Lemma defaultNode_reachable G : reachable G defaultNode.
Proof.
  unfold defaultNode.
  destruct (ElevationMap_ctor noParams 0%Q rawMemory) as [[[s period] ev]|] eqn:E.
  - exact (reachable_init G _ _ _ _ _ _ E).
  - vm_compute in E. discriminate.
Qed.

(** C1, counterexample.  A reachable state of the node with the default
    parameters in which an initialized variance is below [minVariance]:
    one batch whose 301 points fall into the same cell. *)
Lemma variance_bounds_broken_by_fusion :
  reachable getIndexFromPosition_spec crowdedNode
  /\ coeff (varianceData_ crowdedNode) 150 150 = Fin (3 # 3010)
  /\ minVariance_ crowdedNode = Fin (1 # 1000)
  /\ ~ varianceBounds crowdedNode.
Proof.
  split; [exact (reachable_step _ _ _ (defaultNode_reachable _))|].
  split; [vm_compute; reflexivity|].
  split; [vm_compute; reflexivity|].
  intro H.
  assert (Hin : inside (varianceData_ crowdedNode) 150 150).
  { unfold inside.
    replace (rows (varianceData_ crowdedNode)) with 300 by (vm_compute; reflexivity).
    replace (cols (varianceData_ crowdedNode)) with 300 by (vm_compute; reflexivity).
    lia. }
  specialize (H 150 150 Hin (varianceData_ crowdedNode) (or_introl eq_refl)).
  vm_compute in H. specialize (H eq_refl). discriminate.
Qed.

(** The growth step leaves [varianceX] and [varianceY] unclamped: after
    a first observation and 41 batches without points the variance of
    the cell is 0.5, the maximum, and its [varianceX] and [varianceY]
    are above the maximum. *)
Example growth_does_not_clamp_varianceXY :
  maxVariance_ (agedNode 41) = Fin (1 # 2)
  /\ coeff (varianceData_ (agedNode 41)) 150 150 = Fin (1 # 2)
  /\ (maxVariance_ (agedNode 41) <? coeff (varianceDataX_ (agedNode 41)) 150 150)%D = true
  /\ (maxVariance_ (agedNode 41) <? coeff (varianceDataY_ (agedNode 41)) 150 150)%D = true.
Proof. vm_compute. repeat split; reflexivity. Qed.

(** The scenario of the specification: a first point of elevation 1.0,
    the growth of the next batch, a second point of elevation 1.0. *)
Example two_batches_scenario :
  let G := getIndexFromPosition_spec in
  let s1 := observedNode in
  let s2 := state_of (pointCloudCallback G (envOf 1 true) (batch 2%Q 1 (pointAt 1)) s1) in
  coeff (elevationData_ s1) 150 150 = Fin 1
  /\ coeff (varianceData_ s1) 150 150 = Fin (3 # 10)
  /\ coeff (varianceData_ (state_of (updateProcessNoise 2%Q s1))) 150 150 = Fin (61 # 200)
  /\ coeff (elevationData_ s2) 150 150 = Fin 1
  /\ coeff (varianceData_ s2) 150 150 = Fin (183 # 1210)
  /\ coeff (varianceDataX_ s2) 150 150 = Fin (183 # 1820).
Proof. vm_compute. repeat split; reflexivity. Qed.

(** ** Publishing without consumers *)

(** C5, as the code has it.  With no subscriber, [publishElevationMap]
    publishes nothing, leaves the object as it is and returns [false];
    the sensor callback then logs the error "Broadcasting elevation map
    failed." as its last action and ends normally, nothing published. *)
Theorem no_consumer_publish G env pointCloud s :
  getNumSubscribers env = 0%N ->
  publishElevationMap env s = (false, s, [])
  /\ let r := pointCloudCallback G env pointCloud s in
     count isPublish (events r) = 0%nat
     /\ exists before,
         events r = before ++ [Log Error "ElevationMap: Broadcasting elevation map failed."].
Proof.
  intro H0.
  assert (Hp : forall s', publishElevationMap env s' = (false, s', [])).
  { intro s'. unfold publishElevationMap. now rewrite H0. }
  split; [apply Hp|].
  cbv zeta. rewrite pointCloudCallback_events, Hp, H0. cbn [events snd N.ltb N.compare].
  split.
  - destruct (lookupTransform _ _ _ _); reflexivity.
  - eexists. rewrite app_nil_l, !app_assoc. reflexivity.
Qed.

Lemma no_consumer_publish_witness :
  let env := envOf 0 true in
  let r := pointCloudCallback getIndexFromPosition_spec env (batch 1%Q 1 (pointAt 1))
             defaultNode in
  getNumSubscribers env = 0%N
  /\ publishElevationMap env defaultNode = (false, defaultNode, [])
  /\ count isPublish (events r) = 0%nat
  /\ exists before,
      events r = before ++ [Log Error "ElevationMap: Broadcasting elevation map failed."].
Proof.
  intros env r. split; [reflexivity|].
  exact (no_consumer_publish getIndexFromPosition_spec env (batch 1%Q 1 (pointAt 1))
           defaultNode eq_refl).
Defined.

(** C5, counterexample.  A batch handled with no subscriber, the lookup
    of the transform succeeding: the only thing that goes wrong is the
    publish step, and an error is logged for it. *)
Lemma no_consumer_is_logged_as_error :
  let env := envOf 0 true in
  let r := pointCloudCallback getIndexFromPosition_spec env (batch 1%Q 1 (pointAt 1))
             defaultNode in
  getNumSubscribers env = 0%N
  /\ loggedError r = true
  /\ filter isError (events r)
     = [Log Error "ElevationMap: Broadcasting elevation map failed."].
Proof. vm_compute. repeat split; reflexivity. Qed.

(** ** The watchdog *)

Lemma mapUpdateTimerCallback_fresh now s :
  (now - timeOfLastUpdate_ s < maxNoUpdateDuration_ s)%Q ->
  mapUpdateTimerCallback now s = (tt, s, []).
Proof.
  intro H. apply Qltb_lt in H.
  unfold mapUpdateTimerCallback, bind; cbn -[Qltb]. now rewrite H.
Qed.

Lemma mapUpdateTimerCallback_stale now s :
  (maxNoUpdateDuration_ s <= now - timeOfLastUpdate_ s)%Q ->
  mapUpdateTimerCallback now s
  = (tt, s,
     [Log Debug "Elevation map is updated without data from the sensor.";
      SendTransform (elevationMapToParentTransform_ s) now
        (parentFrameId_ s) (elevationMapFrameId_ s);
      Log Debug "Published transform for elevation map in parent frame at time %f."]).
Proof.
  intro H. apply Qltb_ge in H.
  unfold mapUpdateTimerCallback, bind; cbn -[Qltb]. now rewrite H.
Qed.

Lemma updateProcessNoise_config time s :
  let s' := state_of (updateProcessNoise time s) in
  length_ s' = length_ s /\ resolution_ s' = resolution_ s
  /\ minVariance_ s' = minVariance_ s /\ maxVariance_ s' = maxVariance_ s
  /\ timeOfLastUpdate_ s' = timeOfLastUpdate_ s
  /\ maxNoUpdateDuration_ s' = maxNoUpdateDuration_ s
  /\ elevationData_ s' = elevationData_ s /\ colorData_ s' = colorData_ s.
Proof. cbn. repeat split. Qed.

Lemma addPoint_clock G point s :
  let s' := state_of (addPoint G point s) in
  timeOfLastUpdate_ s' = timeOfLastUpdate_ s
  /\ maxNoUpdateDuration_ s' = maxNoUpdateDuration_ s.
Proof.
  cbv zeta. rewrite addPoint_state.
  destruct (G _ _ _) as [index|]; [|now split].
  destruct (fuse_config index point s) as (_ & _ & _ & _ & Ht & Hd). now split.
Qed.

Lemma forEach_addPoint_clock G l s :
  let s' := state_of (forEach l (addPoint G) s) in
  timeOfLastUpdate_ s' = timeOfLastUpdate_ s
  /\ maxNoUpdateDuration_ s' = maxNoUpdateDuration_ s.
Proof.
  apply (forEach_invariant
           (fun s' => timeOfLastUpdate_ s' = timeOfLastUpdate_ s
                      /\ maxNoUpdateDuration_ s' = maxNoUpdateDuration_ s)
           (addPoint G)); [|now split].
  intros a s0 [Ht Hd]. destruct (addPoint_clock G a s0) as [Ht' Hd'].
  split; congruence.
Qed.

Lemma pointCloudCallback_clock G env pointCloud s :
  let s' := state_of (pointCloudCallback G env pointCloud s) in
  timeOfLastUpdate_ s' = stamp pointCloud
  /\ maxNoUpdateDuration_ s' = maxNoUpdateDuration_ s.
Proof.
  cbv zeta. rewrite pointCloudCallback_state.
  destruct (lookupTransform _ _ _ _) as [t|what]; [|now split].
  match goal with |- context [forEach ?l _ ?s1] =>
    destruct (forEach_addPoint_clock G l s1) as [Ht Hd] end.
  rewrite Ht, Hd. now split.
Qed.


(** [initialize]: the matrices get the dimensions computed by [resize]
    and the constants of [reset]; the rest of the object stays. *)
Lemma initialize_state now s b s' ev :
  initialize now s = Some (b, s', ev) ->
  exists nRows nCols,
    elevationData_ s' = mkMatrix nRows nCols (fun _ _ => NaN)
    /\ varianceData_ s' = mkMatrix nRows nCols (fun _ _ => NaN)
    /\ varianceDataX_ s' = mkMatrix nRows nCols (fun _ _ => NaN)
    /\ varianceDataY_ s' = mkMatrix nRows nCols (fun _ _ => NaN)
    /\ colorData_ s' = mkMatrix nRows nCols (fun _ _ => 0)
    /\ maxNoUpdateDuration_ s' = maxNoUpdateDuration_ s
    /\ timeOfLastUpdate_ s' = timeOfLastUpdate_ s.
Proof.
  unfold initialize, resize. cbn -[static_cast_int ddiv].
  destruct (static_cast_int _) as [nRows|]; [|discriminate].
  destruct (static_cast_int _) as [nCols|]; [|discriminate].
  destruct (_ || _)%bool; [discriminate|].
  cbn. intro H. injection H as _ <- _.
  exists nRows, nCols. cbn. repeat split.
Qed.







(** ** Failures inside a batch *)




(** C8, as the code has it.  When the lookup of the transform fails,
    the callback logs the failure, fuses nothing and goes on to the
    publish step.  The elevation and the color channels are unchanged;
    the three variance channels are those the growth step of this batch
    has produced, and the time of the last update is the stamp of the
    batch. *)
Theorem lookup_failure_skips_fusion G env pointCloud s what :
  lookupTransform env (elevationMapFrameId_ s) (frame_id pointCloud) (stamp pointCloud)
  = inr what ->
  let time := stamp pointCloud in
  let r := pointCloudCallback G env pointCloud s in
  state_of r = set_timeOfLastUpdate time (state_of (updateProcessNoise time s))
  /\ elevationData_ (state_of r) = elevationData_ s
  /\ colorData_ (state_of r) = colorData_ s
  /\ varianceData_ (state_of r)
     = unaryExpr (VarianceClampOperator (minVariance_ s) (maxVariance_ s))
         (addScalar processNoise (varianceData_ s))
  /\ varianceDataX_ (state_of r) = addScalar processNoise (varianceDataX_ s)
  /\ varianceDataY_ (state_of r) = addScalar processNoise (varianceDataY_ s)
  /\ filter isError (events r)
     = [Log Error what;
        Log Error "ElevationMap: Point cloud transform failed for time stamp %f."]
       ++ (if (getNumSubscribers env <? 1)%N
           then [Log Error "ElevationMap: Broadcasting elevation map failed."] else [])
  /\ count isPublish (events r) = (if (getNumSubscribers env <? 1)%N then 0 else 1)%nat.
Proof.
  intros H time r. subst r time.
  assert (Hs : state_of (pointCloudCallback G env pointCloud s)
               = set_timeOfLastUpdate (stamp pointCloud)
                   (state_of (updateProcessNoise (stamp pointCloud) s))).
  { rewrite pointCloudCallback_state. now rewrite H. }
  rewrite pointCloudCallback_events. cbv zeta. rewrite H, Hs.
  repeat (split; [reflexivity|]).
  unfold publishElevationMap. destruct (_ <? _)%N; split; reflexivity.
Qed.

Lemma lookup_failure_skips_fusion_witness :
  let r := pointCloudCallback getIndexFromPosition_spec (envOf 1 false)
             (batch 2%Q 1 (pointAt 1)) observedNode in
  elevationData_ (state_of r) = elevationData_ observedNode
  /\ colorData_ (state_of r) = colorData_ observedNode
  /\ timeOfLastUpdate_ (state_of r) = 2%Q
  /\ coeff (varianceData_ (state_of r)) 150 150 = Fin (61 # 200)
  /\ count isPublish (events r) = 1%nat.
Proof.
  intro r.
  destruct (lookup_failure_skips_fusion getIndexFromPosition_spec (envOf 1 false)
              (batch 2%Q 1 (pointAt 1)) observedNode "lookup failed" eq_refl)
    as (Hs & He & Hc & Hv & _ & _ & _ & Hp).
  fold r in Hs, He, Hc, Hv, Hp.
  split; [exact He|]. split; [exact Hc|].
  split; [rewrite Hs; reflexivity|].
  split; [rewrite Hv; vm_compute; reflexivity|].
  exact Hp.
Defined.

(** C8, counterexample.  A batch whose lookup fails, received by a node
    that has observed the cell at the centre: the variance of that cell
    goes from 0.3 to 0.305 in all three variance channels, so the grid
    is not left unchanged. *)
Lemma lookup_failure_changes_variance :
  let s := observedNode in
  let s' := state_of (pointCloudCallback getIndexFromPosition_spec (envOf 1 false)
                        (batch 2%Q 1 (pointAt 1)) s) in
  coeff (varianceData_ s) 150 150 = Fin (3 # 10)
  /\ coeff (varianceData_ s') 150 150 = Fin (61 # 200)
  /\ coeff (varianceDataX_ s') 150 150 = Fin (61 # 200)
  /\ coeff (varianceDataY_ s') 150 150 = Fin (61 # 200)
  /\ grid s' <> grid s.
Proof.
  intros s s'.
  assert (H0 : coeff (varianceData_ s) 150 150 = Fin (3 # 10)) by (vm_compute; reflexivity).
  assert (H1 : coeff (varianceData_ s') 150 150 = Fin (61 # 200)) by (vm_compute; reflexivity).
  split; [exact H0|]. split; [exact H1|].
  split; [vm_compute; reflexivity|]. split; [vm_compute; reflexivity|].
  intro E. unfold grid in E.
  assert (Ev : varianceData_ s' = varianceData_ s) by congruence.
  rewrite Ev, H0 in H1. discriminate H1.
Qed.

(** ** Resize and reset *)

(** The cast to [int] of a double that is not negative is its floor,
    whichever computation produced the double. *)
Lemma static_cast_int_floor q :
  (0 <= q)%Q -> Qfloor q < 2 ^ 31 ->
  static_cast_int (Fin q) = Some (Qfloor q).
Proof.
  intros Hq Hmax. unfold static_cast_int.
  destruct q as [n d].
  assert (Hn : 0 <= n).
  { unfold Qle in Hq; simpl in Hq. lia. }
  cbn [Qnum Qden].
  rewrite Z.quot_div_nonneg by lia.
  change (n / Z.pos d) with (Qfloor (n # d)).
  assert (H0 : 0 <= Qfloor (n # d)).
  { unfold Qfloor. apply Z.div_pos; lia. }
  destruct (Z.leb_spec (- 2 ^ 31) (Qfloor (n # d))); [|lia].
  destruct (Z.ltb_spec (Qfloor (n # d)) (2 ^ 31)); [|lia].
  reflexivity.
Qed.

(** C9.  [resize] gives the five matrices [floor(lengthX / resolution)]
    rows and [floor(lengthY / resolution)] columns, where
    [lengthX / resolution] and [lengthY / resolution] are the doubles
    [qx] and [qy] that the two divisions yield (not negative, within the
    range of [int]): the cast to [int] of such a double is its floor.  A
    [reset] after it keeps the dimensions and sets every elevation and
    every variance to NaN and every color to 0.  For lengths of 1.0 and
    a resolution of 0.1 the quotients are 10 and the grid is 10 by 10,
    the instance proved right after. *)
Theorem resize_then_reset s lengthX lengthY qx qy :
  (lengthX / resolution_ s)%D = Fin qx ->
  (lengthY / resolution_ s)%D = Fin qy ->
  (0 <= qx)%Q -> (0 <= qy)%Q ->
  Qfloor qx < 2 ^ 31 -> Qfloor qy < 2 ^ 31 ->
  let nRows := Qfloor qx in
  let nCols := Qfloor qy in
  static_cast_int (Fin qx) = Some nRows
  /\ static_cast_int (Fin qy) = Some nCols
  /\ exists s1,
      resize (lengthX, lengthY) s
      = Some (true, s1,
              [Log Debug "Elevation map matrix resized to %i rows and %i columns."])
      /\ length_ s1 = (lengthX, lengthY)
      /\ (rows (elevationData_ s1), cols (elevationData_ s1)) = (nRows, nCols)
      /\ (rows (varianceData_ s1), cols (varianceData_ s1)) = (nRows, nCols)
      /\ (rows (varianceDataX_ s1), cols (varianceDataX_ s1)) = (nRows, nCols)
      /\ (rows (varianceDataY_ s1), cols (varianceDataY_ s1)) = (nRows, nCols)
      /\ (rows (colorData_ s1), cols (colorData_ s1)) = (nRows, nCols)
      /\ let s2 := state_of (reset s1) in
         elevationData_ s2 = mkMatrix nRows nCols (fun _ _ => NaN)
         /\ varianceData_ s2 = mkMatrix nRows nCols (fun _ _ => NaN)
         /\ varianceDataX_ s2 = mkMatrix nRows nCols (fun _ _ => NaN)
         /\ varianceDataY_ s2 = mkMatrix nRows nCols (fun _ _ => NaN)
         /\ colorData_ s2 = mkMatrix nRows nCols (fun _ _ => 0).
Proof.
  intros Hqx Hqy Hx Hy HmaxX HmaxY nRows nCols.
  pose proof (static_cast_int_floor qx Hx HmaxX) as Hcx.
  pose proof (static_cast_int_floor qy Hy HmaxY) as Hcy.
  fold nRows in Hcx. fold nCols in Hcy.
  split; [exact Hcx|]. split; [exact Hcy|].
  unfold resize. cbn [length_ resolution_ set_length fst snd].
  rewrite Hqx, Hqy, Hcx, Hcy.
  assert (H0 : 0 <= nRows /\ 0 <= nCols).
  { split; [change 0 with (Qfloor 0) | change 0 with (Qfloor 0)];
      apply Qfloor_resp_le; assumption. }
  destruct (Z.ltb_spec nRows 0); [lia|].
  destruct (Z.ltb_spec nCols 0); [lia|].
  cbn [orb]. eexists. split; [reflexivity|].
  cbn. repeat split.
Qed.

Lemma resize_then_reset_witness :
  let s := smallConfigured in
  resolution_ s = Fin (1 # 10)
  /\ (Fin 1 / resolution_ s)%D = Fin 10
  /\ exists s1,
      resize (Fin 1, Fin 1) s
      = Some (true, s1,
              [Log Debug "Elevation map matrix resized to %i rows and %i columns."])
      /\ (rows (elevationData_ s1), cols (elevationData_ s1)) = (10, 10)
      /\ (rows (varianceData_ s1), cols (varianceData_ s1)) = (10, 10)
      /\ (rows (varianceDataX_ s1), cols (varianceDataX_ s1)) = (10, 10)
      /\ (rows (varianceDataY_ s1), cols (varianceDataY_ s1)) = (10, 10)
      /\ (rows (colorData_ s1), cols (colorData_ s1)) = (10, 10)
      /\ let s2 := state_of (reset s1) in
         elevationData_ s2 = mkMatrix 10 10 (fun _ _ => NaN)
         /\ varianceData_ s2 = mkMatrix 10 10 (fun _ _ => NaN)
         /\ varianceDataX_ s2 = mkMatrix 10 10 (fun _ _ => NaN)
         /\ varianceDataY_ s2 = mkMatrix 10 10 (fun _ _ => NaN)
         /\ colorData_ s2 = mkMatrix 10 10 (fun _ _ => 0).
Proof.
  intro s.
  assert (Hres : resolution_ s = Fin (1 # 10)) by (vm_compute; reflexivity).
  assert (Hq : (Fin 1 / resolution_ s)%D = Fin 10) by (vm_compute; reflexivity).
  split; [exact Hres|]. split; [exact Hq|].
  destruct (resize_then_reset s (Fin 1) (Fin 1) 10 10 Hq Hq)
    as (_ & _ & s1 & Hr & _ & H); try (vm_compute; (reflexivity || discriminate)).
  exists s1. split; [exact Hr | exact H].
Defined.

(** ** [varianceX] and [varianceY] *)

Lemma fuse_sameXY index point s : sameXY s -> sameXY (state_of (fuse index point s)).
Proof.
  intros (Hr & Hc & Hxy). unfold fuse, sameXY.
  cbn -[dadd dmul ddiv measurementVariance].
  destruct (isnan _); cbn -[dadd dmul ddiv measurementVariance];
    (split; [exact Hr|]; split; [exact Hc|]);
    intros i j; rewrite Hxy; reflexivity.
Qed.

Lemma addPoint_sameXY G point s : sameXY s -> sameXY (state_of (addPoint G point s)).
Proof.
  intro H. rewrite addPoint_state.
  destruct (G _ _ _); [now apply fuse_sameXY | exact H].
Qed.

Lemma updateProcessNoise_sameXY time s :
  sameXY s -> sameXY (state_of (updateProcessNoise time s)).
Proof.
  intros (Hr & Hc & Hxy). unfold sameXY. cbn -[dadd].
  split; [exact Hr|]. split; [exact Hc|].
  intros i j. now rewrite Hxy.
Qed.

Lemma ElevationMap_ctor_sameXY ps now mem s period ev :
  ElevationMap_ctor ps now mem = Some (s, period, ev) -> sameXY s.
Proof.
  unfold ElevationMap_ctor. intro H.
  destruct (readParameters ps _) as [[b s1]|]; [|discriminate H].
  destruct (initialize now s1) as [[[b2 s2] e2]|] eqn:E2; [|discriminate H].
  injection H as <- _ _.
  destruct (initialize_state _ _ _ _ _ E2) as (r & c & _ & _ & Hx & Hy & _).
  unfold sameXY. rewrite Hx, Hy. repeat split.
Qed.

(** C10.  In every state the node can reach once it is constructed, the
    grids of [varianceX] and [varianceY] have the same dimensions and
    the same value in every cell. *)
Theorem varianceX_equals_varianceY G s :
  reachable G s -> sameXY s.
Proof.
  induction 1 as [ps now mem s period ev Hctor | s input _ IH].
  - exact (ElevationMap_ctor_sameXY _ _ _ _ _ _ Hctor).
  - destruct input as [env pointCloud | now]; cbn [handle].
    + rewrite pointCloudCallback_state.
      pose proof (updateProcessNoise_sameXY (stamp pointCloud) s IH) as H1.
      assert (H2 : sameXY (set_timeOfLastUpdate (stamp pointCloud)
                             (state_of (updateProcessNoise (stamp pointCloud) s))))
        by exact H1.
      destruct (lookupTransform _ _ _ _); [|exact H2].
      apply forEach_invariant; [apply addPoint_sameXY | exact H2].
    + unfold mapUpdateTimerCallback. rewrite state_bind. cbn -[Qltb].
      destruct (Qltb _ _); exact IH.
Qed.

Lemma varianceX_equals_varianceY_witness :
  reachable getIndexFromPosition_spec crowdedNode /\ sameXY crowdedNode.
Proof.
  assert (H : reachable getIndexFromPosition_spec crowdedNode)
    by exact (reachable_step _ _ _ (defaultNode_reachable _)).
  split; [exact H|].
  exact (varianceX_equals_varianceY getIndexFromPosition_spec crowdedNode H).
Defined.

(** * Further properties of the code *)

(** ** Points outside the grid, and the cell a point touches *)

Lemma fuse_keeps index point s :
  config (state_of (fuse index point s)) = config s
  /\ dims (state_of (fuse index point s)) = dims s
  /\ timeOfLastUpdate_ (state_of (fuse index point s)) = timeOfLastUpdate_ s.
Proof.
  unfold fuse. cbn -[dadd dmul ddiv measurementVariance].
  destruct (isnan _); cbn -[dadd dmul ddiv measurementVariance]; repeat split.
Qed.

Lemma addPoint_keeps G point s :
  config (state_of (addPoint G point s)) = config s
  /\ dims (state_of (addPoint G point s)) = dims s
  /\ timeOfLastUpdate_ (state_of (addPoint G point s)) = timeOfLastUpdate_ s.
Proof.
  rewrite addPoint_state.
  destruct (G _ _ _) as [index|]; [apply fuse_keeps | repeat split].
Qed.

Lemma forEach_addPoint_keeps G l s :
  config (state_of (forEach l (addPoint G) s)) = config s
  /\ dims (state_of (forEach l (addPoint G) s)) = dims s
  /\ timeOfLastUpdate_ (state_of (forEach l (addPoint G) s)) = timeOfLastUpdate_ s.
Proof.
  apply (forEach_invariant
           (fun s' => config s' = config s /\ dims s' = dims s
                      /\ timeOfLastUpdate_ s' = timeOfLastUpdate_ s)
           (addPoint G)); [|repeat split].
  intros a s0 (Hc & Hd & Ht).
  destruct (addPoint_keeps G a s0) as (Hc' & Hd' & Ht').
  repeat split; congruence.
Qed.

(** X1.  A batch all of whose points are refused by the indexer (they
    fall outside the grid) is skipped point by point: [addToElevationMap]
    returns [true], logs nothing and leaves the whole object as it is. *)
Theorem out_of_grid_points_are_skipped G pointCloud s :
  (forall p, In p (points pointCloud) ->
             G (px p, py p) (length_ s) (resolution_ s) = None) ->
  addToElevationMap G pointCloud s = (true, s, []).
Proof.
  intro H. unfold addToElevationMap.
  assert (Hloop : forEach (points pointCloud) (addPoint G) s = (tt, s, [])).
  { induction (points pointCloud) as [|p l IH]; [reflexivity|].
    cbn [forEach].
    assert (Hp : addPoint G p s = (tt, s, [])).
    { unfold addPoint. rewrite (bind_run _ _ _ _ _ _ eq_refl). cbv beta zeta.
      rewrite (H p (or_introl eq_refl)). reflexivity. }
    rewrite (bind_run _ _ _ _ _ _ Hp), IH; [reflexivity|].
    intros q Hq. apply H. now right. }
  rewrite (bind_run _ _ _ _ _ _ Hloop). reflexivity.
Qed.

Lemma out_of_grid_points_are_skipped_witness :
  let G := getIndexFromPosition_spec in
  G (Fin 5, Fin 0) (length_ observedNode) (resolution_ observedNode) = None
  /\ addToElevationMap G (batch 2%Q 3 farPoint) observedNode = (true, observedNode, []).
Proof.
  intro G.
  assert (H : G (Fin 5, Fin 0) (length_ observedNode) (resolution_ observedNode) = None)
    by (vm_compute; reflexivity).
  split; [exact H|].
  apply (out_of_grid_points_are_skipped G (batch 2%Q 3 farPoint) observedNode).
  intros p Hp. apply repeat_spec in Hp. subst p. exact H.
Defined.

(** X2.  The fusion of a point writes into the cell of its index only:
    every other cell keeps its five values, and the dimensions of the
    five channels stay. *)
Theorem fusion_touches_one_cell G point s i j i' j' :
  G (px point, py point) (length_ s) (resolution_ s) = Some (i, j) ->
  (i', j') <> (i, j) ->
  let s' := state_of (addPoint G point s) in
  cell s' i' j' = cell s i' j' /\ dims s' = dims s.
Proof.
  intros Hidx Hne s'. subst s'.
  split; [|apply addPoint_keeps].
  rewrite addPoint_state, Hidx.
  assert (Hb : ((i' =? i)%Z && (j' =? j)%Z)%bool = false).
  { destruct (Z.eqb_spec i' i), (Z.eqb_spec j' j); try reflexivity.
    subst. now elim Hne. }
  unfold fuse, cell. cbn -[dadd dmul ddiv measurementVariance Z.eqb].
  destruct (isnan _); cbn -[dadd dmul ddiv measurementVariance Z.eqb];
    rewrite !Hb; reflexivity.
Qed.

Lemma fusion_touches_one_cell_witness :
  let G := getIndexFromPosition_spec in
  let s' := state_of (addPoint G redPoint observedNode) in
  G (Fin 0, Fin 0) (length_ observedNode) (resolution_ observedNode) = Some centre
  /\ cell s' 150 151 = cell observedNode 150 151
  /\ dims s' = dims observedNode.
Proof.
  intro G.
  assert (H : G (Fin 0, Fin 0) (length_ observedNode) (resolution_ observedNode)
              = Some centre) by (vm_compute; reflexivity).
  split; [exact H|].
  apply (fusion_touches_one_cell G redPoint observedNode 150 150 150 151 H).
  discriminate.
Defined.

(** ** The color of a cell *)

Lemma lor_shiftl_low a b n :
  0 <= n -> 0 <= b < 2 ^ n -> Z.lor (Z.shiftl a n) b = a * 2 ^ n + b.
Proof.
  intros Hn Hb.
  assert (Hland : Z.land (Z.shiftl a n) b = 0).
  { apply Z.bits_inj'. intros k Hk.
    rewrite Z.land_spec, Z.bits_0.
    destruct (Z.lt_ge_cases k n) as [Hlt|Hge].
    - rewrite Z.shiftl_spec_low by exact Hlt. reflexivity.
    - assert (Hbk : Z.testbit b k = false).
      { destruct (Z.eq_dec b 0) as [->|Hb0]; [apply Z.bits_0|].
        apply Z.bits_above_log2; [lia|].
        apply Z.lt_le_trans with n; [|exact Hge].
        apply Z.log2_lt_pow2; lia. }
      rewrite Hbk. apply andb_false_r. }
  rewrite <- Z.lxor_lor by exact Hland.
  rewrite <- Z.add_nocarry_lxor by exact Hland.
  rewrite Z.shiftl_mul_pow2 by exact Hn. reflexivity.
Qed.

Lemma packColor_bytes p :
  0 <= pr p < 256 -> 0 <= pg p < 256 -> 0 <= pb p < 256 ->
  packColor p = 65536 * pr p + 256 * pg p + pb p.
Proof.
  intros Hr Hg Hb. unfold packColor.
  replace (Z.shiftl (pr p) 16) with (Z.shiftl (Z.shiftl (pr p) 8) 8)
    by (rewrite Z.shiftl_shiftl by lia; reflexivity).
  rewrite <- Z.shiftl_lor.
  rewrite (lor_shiftl_low (pr p) (pg p) 8) by lia.
  rewrite lor_shiftl_low by lia. lia.
Qed.

(** X3.  Whatever the cell held, after the fusion of a point its color
    is the packed color of that point (no blending).  For a point whose
    red, green and blue are bytes the packed color is
    [65536 * r + 256 * g + b], a 24-bit value from which the three bytes
    are read back. *)
Theorem color_is_last_observed G point s i j :
  G (px point, py point) (length_ s) (resolution_ s) = Some (i, j) ->
  0 <= pr point < 256 -> 0 <= pg point < 256 -> 0 <= pb point < 256 ->
  let c := coeff (colorData_ (state_of (addPoint G point s))) i j in
  c = 65536 * pr point + 256 * pg point + pb point
  /\ 0 <= c < 2 ^ 24
  /\ c / 65536 = pr point /\ (c / 256) mod 256 = pg point /\ c mod 256 = pb point.
Proof.
  intros Hidx Hr Hg Hb c.
  assert (Hc : c = packColor point).
  { subst c. rewrite addPoint_state, Hidx.
    destruct (isnan (coeff (elevationData_ s) i j)) eqn:E.
    - apply (fuse_cold i j point s E).
    - apply (fuse_update i j point s E). }
  rewrite Hc, (packColor_bytes point Hr Hg Hb).
  split; [reflexivity|].
  split; [lia|].
  split; [|split].
  - symmetry. apply (Z.div_unique _ 65536 _ (256 * pg point + pb point)); lia.
  - replace ((65536 * pr point + 256 * pg point + pb point) / 256)
      with (256 * pr point + pg point)
      by (apply (Z.div_unique _ 256 _ (pb point)); lia).
    symmetry. apply (Z.mod_unique _ 256 (pr point)); lia.
  - symmetry. apply (Z.mod_unique _ 256 (256 * pr point + pg point)); lia.
Qed.

Lemma color_is_last_observed_witness :
  let G := getIndexFromPosition_spec in
  let c := coeff (colorData_ (state_of (addPoint G redPoint observedNode))) 150 150 in
  coeff (colorData_ observedNode) 150 150 = 0
  /\ c = 65536 * 255 + 256 * 1 + 2
  /\ 0 <= c < 2 ^ 24
  /\ c / 65536 = 255 /\ (c / 256) mod 256 = 1 /\ c mod 256 = 2.
Proof.
  intro G. split; [vm_compute; reflexivity|].
  apply (color_is_last_observed G redPoint observedNode 150 150);
    [vm_compute; reflexivity | | | ]; cbn; lia.
Defined.

(** ** Parameters and construction *)

Lemma fromSec_inverse_rate rate :
  (rate >? Fin 0)%D = true ->
  exists d, fromSec (Fin 1 / rate)%D = Some d /\ (0 <= d)%Q.
Proof.
  destruct rate as [| | |r]; try discriminate; intro H.
  - exists 0%Q. split; [reflexivity | apply Qle_refl].
  - apply dlt_Fin in H. rewrite ddiv_Fin by lra.
    eexists. split; [reflexivity|]. rewrite Qred_correct.
    apply Qle_shift_div_l; lra.
Qed.

(** What a successful [readParameters] leaves in the object. *)
Lemma readParameters_post ps s b s' :
  readParameters ps s = Some (b, s') ->
  b = true
  /\ length_ s' = (param (getDouble ps) "length_in_x" (Fin 3),
                   param (getDouble ps) "length_in_y" (Fin 3))
  /\ resolution_ s' = param (getDouble ps) "resolution" (Fin (1 # 100))
  /\ minVariance_ s' = param (getDouble ps) "min_variance" (Fin (1 # 1000))
  /\ maxVariance_ s' = param (getDouble ps) "max_variance" (Fin (1 # 2))
  /\ (resolution_ s' >? Fin 0)%D = true
  /\ (minVariance_ s' >? Fin 0)%D = true
  /\ (maxVariance_ s' >? Fin 0)%D = true
  /\ (0 <= maxNoUpdateDuration_ s')%Q
  /\ grid s' = grid s
  /\ timeOfLastUpdate_ s' = timeOfLastUpdate_ s.
Proof.
  unfold readParameters. intro H. cbv zeta in H.
  repeat match type of H with
         | context [if negb ?c then None else _] =>
             destruct c eqn:?; cbn [negb] in H; [|discriminate H]
         end.
  match goal with E : (param (getDouble ps) "min_update_rate" _ >? _)%D = true |- _ =>
    destruct (fromSec_inverse_rate _ E) as (d & Ed & Hd) end.
  rewrite Ed in H. clear Ed.
  injection H as <- <-.
  cbn [length_ resolution_ minVariance_ maxVariance_ maxNoUpdateDuration_
       timeOfLastUpdate_ grid elevationData_ varianceData_ varianceDataX_
       varianceDataY_ colorData_].
  repeat split; assumption.
Qed.

(** X5.  [readParameters] succeeds exactly when its four assertions
    hold: the resolution, the minimum variance, the maximum variance and
    the minimum update rate, each as read from the parameter server or
    defaulted, are greater than zero (a NaN fails).  Nothing relates the
    minimum variance to the maximum variance, nor are the lengths
    looked at. *)
Theorem readParameters_succeeds_iff ps s :
  readParameters ps s <> None
  <-> (param (getDouble ps) "resolution" (Fin (1 # 100)) >? Fin 0)%D = true
      /\ (param (getDouble ps) "min_variance" (Fin (1 # 1000)) >? Fin 0)%D = true
      /\ (param (getDouble ps) "max_variance" (Fin (1 # 2)) >? Fin 0)%D = true
      /\ (param (getDouble ps) "min_update_rate" (Fin 2) >? Fin 0)%D = true.
Proof.
  unfold readParameters. cbv zeta. split.
  - intro H.
    repeat match type of H with
           | context [if negb ?c then None else _] =>
               destruct c eqn:?; cbn [negb] in H; [|now elim H]
           end.
    repeat split; reflexivity.
  - intros (H1 & H2 & H3 & H4). rewrite H1, H2, H3, H4. cbn [negb].
    destruct (fromSec_inverse_rate _ H4) as (d & Ed & _). rewrite Ed. discriminate.
Qed.

Lemma readParameters_succeeds_iff_witness :
  (minVariance_ (match readParameters invertedParams rawMemory with
                 | Some (_, s) => s | None => rawMemory end)
   >? maxVariance_ (match readParameters invertedParams rawMemory with
                    | Some (_, s) => s | None => rawMemory end))%D = true
  /\ readParameters invertedParams rawMemory <> None.
Proof.
  split; [vm_compute; reflexivity|].
  apply (proj2 (readParameters_succeeds_iff invertedParams rawMemory)).
  vm_compute. repeat split; reflexivity.
Defined.

(** What a successful [initialize] leaves in the object and sends. *)
Lemma initialize_post now s b s' ev :
  initialize now s = Some (b, s', ev) ->
  exists nRows nCols,
    static_cast_int (fst (length_ s) / resolution_ s)%D = Some nRows
    /\ static_cast_int (snd (length_ s) / resolution_ s)%D = Some nCols
    /\ 0 <= nRows /\ 0 <= nCols
    /\ elevationData_ s' = mkMatrix nRows nCols (fun _ _ => NaN)
    /\ varianceData_ s' = mkMatrix nRows nCols (fun _ _ => NaN)
    /\ varianceDataX_ s' = mkMatrix nRows nCols (fun _ _ => NaN)
    /\ varianceDataY_ s' = mkMatrix nRows nCols (fun _ _ => NaN)
    /\ colorData_ s' = mkMatrix nRows nCols (fun _ _ => 0)
    /\ config s' = config s
    /\ timeOfLastUpdate_ s' = timeOfLastUpdate_ s
    /\ ev = [Log Debug "Elevation map matrix resized to %i rows and %i columns.";
             SendTransform (elevationMapToParentTransform_ s) now
               (parentFrameId_ s) (elevationMapFrameId_ s);
             Log Debug "Published transform for elevation map in parent frame at time %f.";
             Log Info "StarlETH elevation map node initialized."].
Proof.
  unfold initialize, resize. cbn -[static_cast_int ddiv].
  destruct (static_cast_int _) as [nRows|]; [|discriminate].
  destruct (static_cast_int _) as [nCols|]; [|discriminate].
  destruct (Z.ltb_spec nRows 0) as [|Hr0]; [discriminate|].
  destruct (Z.ltb_spec nCols 0) as [|Hc0]; [discriminate|].
  cbn. intro H. injection H as _ <- <-.
  exists nRows, nCols. cbn. destruct s; cbn. repeat split; assumption.
Qed.

(** X6.  A node that has been constructed is blank: the five channels
    have the dimensions [static_cast<int>(length / resolution)], which
    are not negative, every elevation and variance is NaN and every
    color 0, the time of the last update is zero, the transform has been
    sent once, stamped with the time of construction, no error has been
    logged, and the timer period is half of [maxNoUpdateDuration_]. *)
Theorem constructed_node_is_blank ps now mem s period ev :
  ElevationMap_ctor ps now mem = Some (s, period, ev) ->
  exists nRows nCols,
    static_cast_int (fst (length_ s) / resolution_ s)%D = Some nRows
    /\ static_cast_int (snd (length_ s) / resolution_ s)%D = Some nCols
    /\ 0 <= nRows /\ 0 <= nCols
    /\ elevationData_ s = mkMatrix nRows nCols (fun _ _ => NaN)
    /\ varianceData_ s = mkMatrix nRows nCols (fun _ _ => NaN)
    /\ varianceDataX_ s = mkMatrix nRows nCols (fun _ _ => NaN)
    /\ varianceDataY_ s = mkMatrix nRows nCols (fun _ _ => NaN)
    /\ colorData_ s = mkMatrix nRows nCols (fun _ _ => 0)
    /\ timeOfLastUpdate_ s = 0%Q
    /\ filter isSendTransform ev
       = [SendTransform (elevationMapToParentTransform_ s) now
            (parentFrameId_ s) (elevationMapFrameId_ s)]
    /\ filter isError ev = []
    /\ period = mapUpdateTimerPeriod s.
Proof.
  unfold ElevationMap_ctor. intro H.
  destruct (readParameters ps _) as [[b s1]|] eqn:E1; [|discriminate H].
  destruct (initialize now s1) as [[[b2 s2] e2]|] eqn:E2; [|discriminate H].
  injection H as <- <- <-.
  destruct (readParameters_post _ _ _ _ E1) as (_ & _ & _ & _ & _ & _ & _ & _ & _ & _ & Ht).
  destruct (initialize_post _ _ _ _ _ E2)
    as (r & c & Hr & Hc & Hr0 & Hc0 & He & Hv & Hx & Hy & Hcol & Hcfg & Ht' & Hev).
  assert (Hl : length_ s2 = length_ s1) by (unfold config in Hcfg; congruence).
  assert (Hres : resolution_ s2 = resolution_ s1) by (unfold config in Hcfg; congruence).
  assert (Htf : elevationMapToParentTransform_ s2 = elevationMapToParentTransform_ s1)
    by (unfold config in Hcfg; congruence).
  assert (Hp : parentFrameId_ s2 = parentFrameId_ s1)
    by (unfold config in Hcfg; congruence).
  assert (Hf : elevationMapFrameId_ s2 = elevationMapFrameId_ s1)
    by (unfold config in Hcfg; congruence).
  assert (Hd : maxNoUpdateDuration_ s2 = maxNoUpdateDuration_ s1)
    by (unfold config in Hcfg; congruence).
  exists r, c. rewrite Hl, Hres, Htf, Hp, Hf.
  repeat (split; [assumption|]).
  split; [rewrite Ht', Ht; reflexivity|].
  rewrite Hev. split; [reflexivity|]. split; [reflexivity|].
  unfold mapUpdateTimerPeriod. now rewrite Hd.
Qed.

Lemma constructed_node_is_blank_witness :
  exists s period ev,
    ElevationMap_ctor smallParams (7 # 1) rawMemory = Some (s, period, ev)
    /\ elevationData_ s = mkMatrix 10 10 (fun _ _ => NaN)
    /\ colorData_ s = mkMatrix 10 10 (fun _ _ => 0)
    /\ timeOfLastUpdate_ s = 0%Q
    /\ count isSendTransform ev = 1%nat.
Proof.
  destruct (ElevationMap_ctor smallParams (7 # 1) rawMemory) as [[[s period] ev]|] eqn:E.
  - exists s, period, ev. split; [reflexivity|].
    destruct (constructed_node_is_blank smallParams (7 # 1) rawMemory s period ev E)
      as (r & c & Hr & Hc & _ & _ & He & _ & _ & _ & Hcol & Ht & Hev & _).
    assert (Hs : s = match ElevationMap_ctor smallParams (7 # 1) rawMemory with
                     | Some (s0, _, _) => s0 | None => rawMemory end)
      by (rewrite E; reflexivity).
    assert (Hr10 : r = 10).
    { rewrite Hs in Hr. vm_compute in Hr. now injection Hr as <-. }
    assert (Hc10 : c = 10).
    { rewrite Hs in Hc. vm_compute in Hc. now injection Hc as <-. }
    rewrite He, Hcol, Hr10, Hc10. repeat (split; [reflexivity|]).
    split; [exact Ht|]. unfold count. rewrite Hev. reflexivity.
  - vm_compute in E. discriminate E.
Defined.

(** ** What no input changes *)

Lemma mapUpdateTimerCallback_state now s : state_of (mapUpdateTimerCallback now s) = s.
Proof.
  unfold mapUpdateTimerCallback. rewrite state_bind. cbn -[Qltb].
  now destruct (Qltb _ _).
Qed.

Lemma handle_keeps G input s :
  config (state_of (handle G input s)) = config s
  /\ dims (state_of (handle G input s)) = dims s.
Proof.
  destruct input as [env pointCloud | now]; cbn [handle].
  - rewrite pointCloudCallback_state.
    destruct (lookupTransform _ _ _ _) as [t|what]; [|split; reflexivity].
    match goal with |- context [forEach ?l _ ?s1] =>
      destruct (forEach_addPoint_keeps G l s1) as (Hc & Hd & _) end.
    rewrite Hc, Hd. split; reflexivity.
  - rewrite mapUpdateTimerCallback_state. split; reflexivity.
Qed.

(** X7.  No sequence of sensor batches and timer ticks changes a
    parameter of the object or a dimension of one of its five channels:
    after construction the configuration is fixed and the grid is never
    resized. *)
Theorem inputs_keep_configuration G inputs s :
  config (state_of (run G inputs s)) = config s
  /\ dims (state_of (run G inputs s)) = dims s.
Proof.
  unfold run.
  apply (forEach_invariant
           (fun s' => config s' = config s /\ dims s' = dims s) (handle G));
    [|split; reflexivity].
  intros input s0 [Hc Hd]. destruct (handle_keeps G input s0) as [Hc' Hd'].
  split; congruence.
Qed.

(** X8.  In every state the node can reach, the five channels have one
    and the same dimensions, these are the casts to [int] of
    [length / resolution] and are not negative, and the values asserted
    by [readParameters] still hold: resolution, minimum variance and
    maximum variance are greater than zero, [maxNoUpdateDuration_] is
    not negative. *)
Theorem reachable_grid_matches_configuration G s :
  reachable G s ->
  exists nRows nCols,
    static_cast_int (fst (length_ s) / resolution_ s)%D = Some nRows
    /\ static_cast_int (snd (length_ s) / resolution_ s)%D = Some nCols
    /\ 0 <= nRows /\ 0 <= nCols
    /\ dims s = ((nRows, nCols), (nRows, nCols), (nRows, nCols),
                 (nRows, nCols), (nRows, nCols))
    /\ (resolution_ s >? Fin 0)%D = true
    /\ (minVariance_ s >? Fin 0)%D = true
    /\ (maxVariance_ s >? Fin 0)%D = true
    /\ (0 <= maxNoUpdateDuration_ s)%Q.
Proof.
  induction 1 as [ps now mem s period ev Hctor | s input _ IH].
  - destruct (constructed_node_is_blank _ _ _ _ _ _ Hctor)
      as (r & c & Hr & Hc & Hr0 & Hc0 & He & Hv & Hx & Hy & Hcol & _).
    exists r, c. repeat (split; [assumption|]).
    split; [unfold dims, dim; rewrite He, Hv, Hx, Hy, Hcol; reflexivity|].
    unfold ElevationMap_ctor in Hctor.
    destruct (readParameters ps _) as [[b s1]|] eqn:E1; [|discriminate Hctor].
    destruct (initialize now s1) as [[[b2 s2] e2]|] eqn:E2; [|discriminate Hctor].
    injection Hctor as <- _ _.
    destruct (readParameters_post _ _ _ _ E1)
      as (_ & _ & _ & _ & _ & H1 & H2 & H3 & H4 & _).
    destruct (initialize_post _ _ _ _ _ E2)
      as (_ & _ & _ & _ & _ & _ & _ & _ & _ & _ & _ & Hcfg & _).
    unfold config in Hcfg.
    assert (resolution_ s2 = resolution_ s1) as -> by congruence.
    assert (minVariance_ s2 = minVariance_ s1) as -> by congruence.
    assert (maxVariance_ s2 = maxVariance_ s1) as -> by congruence.
    assert (maxNoUpdateDuration_ s2 = maxNoUpdateDuration_ s1) as -> by congruence.
    repeat split; assumption.
  - destruct IH as (r & c & IH).
    destruct (handle_keeps G input s) as [Hcfg Hd].
    unfold config in Hcfg.
    assert (length_ (state_of (handle G input s)) = length_ s) as -> by congruence.
    assert (resolution_ (state_of (handle G input s)) = resolution_ s) as -> by congruence.
    assert (minVariance_ (state_of (handle G input s)) = minVariance_ s) as -> by congruence.
    assert (maxVariance_ (state_of (handle G input s)) = maxVariance_ s) as -> by congruence.
    assert (maxNoUpdateDuration_ (state_of (handle G input s)) = maxNoUpdateDuration_ s)
      as -> by congruence.
    rewrite Hd. exists r, c. exact IH.
Qed.

Lemma reachable_grid_matches_configuration_witness :
  reachable getIndexFromPosition_spec crowdedNode
  /\ exists nRows nCols,
      static_cast_int (fst (length_ crowdedNode) / resolution_ crowdedNode)%D = Some nRows
      /\ static_cast_int (snd (length_ crowdedNode) / resolution_ crowdedNode)%D = Some nCols
      /\ 0 <= nRows /\ 0 <= nCols
      /\ dims crowdedNode = ((nRows, nCols), (nRows, nCols), (nRows, nCols),
                             (nRows, nCols), (nRows, nCols))
      /\ (resolution_ crowdedNode >? Fin 0)%D = true
      /\ (minVariance_ crowdedNode >? Fin 0)%D = true
      /\ (maxVariance_ crowdedNode >? Fin 0)%D = true
      /\ (0 <= maxNoUpdateDuration_ crowdedNode)%Q.
Proof.
  assert (H : reachable getIndexFromPosition_spec crowdedNode)
    by exact (reachable_step _ _ _ (defaultNode_reachable _)).
  split; [exact H|].
  exact (reachable_grid_matches_configuration getIndexFromPosition_spec crowdedNode H).
Defined.

(** ** What a batch sends, publishes and logs *)

Lemma pointCloudCallback_keeps G env pointCloud s :
  config (state_of (pointCloudCallback G env pointCloud s)) = config s.
Proof. exact (proj1 (handle_keeps G (Batch env pointCloud) s)). Qed.

(** X10.  Every batch, whatever happens to its points, sends the
    transform of the map exactly once, stamped with the stamp of the
    batch. *)
Theorem batch_broadcasts_once G env pointCloud s :
  filter isSendTransform (events (pointCloudCallback G env pointCloud s))
  = [SendTransform (elevationMapToParentTransform_ s) (stamp pointCloud)
       (parentFrameId_ s) (elevationMapFrameId_ s)].
Proof.
  rewrite pointCloudCallback_events. cbv zeta.
  unfold publishElevationMap.
  destruct (lookupTransform _ _ _ _); destruct (_ <? _)%N; reflexivity.
Qed.

(** X11.  With at least one subscriber a batch publishes exactly one
    map.  The message carries the five channels as they are after the
    fusion of this batch, the stamp of the batch, and the frame,
    resolution and lengths of the configuration. *)
Theorem batch_publishes_fused_map G env pointCloud s :
  (1 <= getNumSubscribers env)%N ->
  let r := pointCloudCallback G env pointCloud s in
  let s' := state_of r in
  filter isPublish (events r)
  = [Publish (mkMsg (stamp pointCloud) (elevationMapFrameId_ s) (resolution_ s)
                (fst (length_ s)) (snd (length_ s))
                (elevationData_ s') (varianceData_ s') (varianceDataX_ s')
                (varianceDataY_ s') (colorData_ s'))].
Proof.
  intros Hn r s'. subst s' r.
  assert (Hlt : (getNumSubscribers env <? 1)%N = false) by (apply N.ltb_ge; exact Hn).
  rewrite pointCloudCallback_events. cbv zeta.
  destruct (pointCloudCallback_clock G env pointCloud s) as [Ht _].
  pose proof (pointCloudCallback_keeps G env pointCloud s) as Hcfg.
  unfold config in Hcfg.
  remember (state_of (pointCloudCallback G env pointCloud s)) as s' eqn:Es'.
  clear Es'. unfold publishElevationMap. rewrite Hlt.
  assert (E : events
                ((s0 <- get ;;
                  emit (Publish (mkMsg (timeOfLastUpdate_ s0) (elevationMapFrameId_ s0)
                                   (resolution_ s0) (fst (length_ s0)) (snd (length_ s0))
                                   (elevationData_ s0) (varianceData_ s0)
                                   (varianceDataX_ s0) (varianceDataY_ s0)
                                   (colorData_ s0))) ;;
                  ROS_DEBUG "Elevation map has been published." ;;
                  ret true) s')
              = [Publish (mkMsg (stamp pointCloud) (elevationMapFrameId_ s) (resolution_ s)
                            (fst (length_ s)) (snd (length_ s))
                            (elevationData_ s') (varianceData_ s') (varianceDataX_ s')
                            (varianceDataY_ s') (colorData_ s'));
                 Log Debug "Elevation map has been published."]).
  { cbn. rewrite Ht.
    assert (elevationMapFrameId_ s' = elevationMapFrameId_ s) as -> by congruence.
    assert (resolution_ s' = resolution_ s) as -> by congruence.
    assert (length_ s' = length_ s) as -> by congruence.
    reflexivity. }
  rewrite E.
  destruct (lookupTransform _ _ _ _); reflexivity.
Qed.

Lemma batch_publishes_fused_map_witness :
  let G := getIndexFromPosition_spec in
  let r := pointCloudCallback G (envOf 2 true) (batch 2%Q 1 redPoint) observedNode in
  (1 <= getNumSubscribers (envOf 2 true))%N
  /\ exists m, filter isPublish (events r) = [Publish m]
               /\ msg_stamp m = 2%Q
               /\ coeff (msg_elevation m) 150 150 = Fin (182 # 121).
Proof.
  intros G r.
  assert (Hn : (1 <= getNumSubscribers (envOf 2 true))%N) by (vm_compute; discriminate).
  split; [exact Hn|].
  eexists. split.
  - exact (batch_publishes_fused_map G (envOf 2 true) (batch 2%Q 1 redPoint)
             observedNode Hn).
  - split; [reflexivity | vm_compute; reflexivity].
Defined.

(** X12.  The errors a batch logs are these and no other: when the
    lookup of the transform fails, the text of the exception followed by
    the "transform failed" line; when nobody subscribes, the
    "Broadcasting elevation map failed" line, last.  So a batch logs no
    error exactly when the lookup succeeds and there is a subscriber;
    the errors for a failed broadcast, a failed growth step and a failed
    fusion are never logged by the callback itself. *)
Theorem batch_error_log G env pointCloud s :
  let r := pointCloudCallback G env pointCloud s in
  let lookup := lookupTransform env (elevationMapFrameId_ s) (frame_id pointCloud)
                  (stamp pointCloud) in
  filter isError (events r)
  = match lookup with
    | inl _ => []
    | inr what =>
        [Log Error what;
         Log Error "ElevationMap: Point cloud transform failed for time stamp %f."]
    end
    ++ (if (getNumSubscribers env <? 1)%N
        then [Log Error "ElevationMap: Broadcasting elevation map failed."] else [])
  /\ (loggedError r = false
      <-> (exists t, lookup = inl t) /\ (1 <= getNumSubscribers env)%N).
Proof.
  intros r lookup. subst r.
  assert (H : filter isError (events (pointCloudCallback G env pointCloud s))
              = match lookup with
                | inl _ => []
                | inr what =>
                    [Log Error what;
                     Log Error "ElevationMap: Point cloud transform failed for time stamp %f."]
                end
                ++ (if (getNumSubscribers env <? 1)%N
                    then [Log Error "ElevationMap: Broadcasting elevation map failed."]
                    else [])).
  { rewrite pointCloudCallback_events. cbv zeta. fold lookup.
    unfold publishElevationMap.
    destruct lookup; destruct (_ <? _)%N; reflexivity. }
  split; [exact H|].
  unfold loggedError.
  assert (Hex : forall l, existsb isError l = false <-> filter isError l = []).
  { induction l as [|a l IH]; [split; reflexivity|].
    cbn. destruct (isError a); cbn; [split; discriminate | exact IH]. }
  rewrite Hex, H.
  destruct (N.ltb_spec (getNumSubscribers env) 1) as [Hlt|Hge];
    destruct lookup as [t|what]; cbn; split.
  - discriminate.
  - intros [_ Hn]. lia.
  - discriminate.
  - intros [_ Hn]. lia.
  - intros _. split; [now exists t | exact Hge].
  - reflexivity.
  - discriminate.
  - intros [[t Ht] _]. discriminate Ht.
Qed.

(** ** A run of timer ticks *)

Lemma mapUpdateTimerCallback_run now s :
  mapUpdateTimerCallback now s
  = (tt, s,
     if staleAt s now
     then [Log Debug "Elevation map is updated without data from the sensor.";
           SendTransform (elevationMapToParentTransform_ s) now
             (parentFrameId_ s) (elevationMapFrameId_ s);
           Log Debug "Published transform for elevation map in parent frame at time %f."]
     else []).
Proof.
  unfold staleAt. destruct (Qltb _ _) eqn:E; cbn [negb].
  - apply mapUpdateTimerCallback_fresh, Qltb_lt, E.
  - apply mapUpdateTimerCallback_stale, Qltb_ge, E.
Qed.

(** X13.  Timer ticks never change the object, and over any sequence of
    ticks without a batch in between the watchdog sends the transform
    once for each stale tick, in order and stamped with the time of that
    tick, and logs no error. *)
Theorem watchdog_rebroadcasts_at_each_stale_tick G ticks s :
  let r := run G (map Tick ticks) s in
  state_of r = s
  /\ filter isSendTransform (events r)
     = map (fun now => SendTransform (elevationMapToParentTransform_ s) now
                         (parentFrameId_ s) (elevationMapFrameId_ s))
           (filter (staleAt s) ticks)
  /\ loggedError r = false.
Proof.
  cbv zeta. unfold run, loggedError.
  induction ticks as [|now ticks IH]; [repeat split|].
  cbn [map forEach handle].
  rewrite (bind_run _ _ _ _ _ _ (mapUpdateTimerCallback_run now s)).
  cbn [state_of events fst snd].
  destruct IH as (Hs & Hsend & Herr).
  split; [exact Hs|].
  rewrite filter_app, existsb_app, Hsend, Herr. cbn [filter].
  destruct (staleAt s now); split; reflexivity.
Qed.

(** ** Growth without fusion *)

Lemma grown_S n s : grown (S n) s = state_of (updateProcessNoise 0%Q (grown n s)).
Proof. reflexivity. Qed.

(** Adding the process noise any number of times does not lower a
    value. *)
Lemma noise_does_not_lower x n :
  (Nat.iter n (fun y => y + processNoise)%D x <? x)%D = false.
Proof.
  destruct x as [| | |q].
  - assert (H : Nat.iter n (fun y => y + processNoise)%D NaN = NaN)
      by (induction n as [|n IH]; [reflexivity | rewrite Nat.iter_succ, IH; reflexivity]).
    now rewrite H.
  - assert (H : Nat.iter n (fun y => y + processNoise)%D PInf = PInf)
      by (induction n as [|n IH]; [reflexivity | rewrite Nat.iter_succ, IH; reflexivity]).
    now rewrite H.
  - assert (H : Nat.iter n (fun y => y + processNoise)%D NInf = NInf)
      by (induction n as [|n IH]; [reflexivity | rewrite Nat.iter_succ, IH; reflexivity]).
    now rewrite H.
  - assert (H : exists w, Nat.iter n (fun y => y + processNoise)%D (Fin q) = Fin w
                          /\ (q <= w)%Q).
    { induction n as [|n (w & Hw & Hle)].
      - exists q. split; [reflexivity | apply Qle_refl].
      - rewrite Nat.iter_succ, Hw. unfold processNoise. cbn [dadd].
        eexists. split; [reflexivity|]. rewrite Qred_correct. lra. }
    destruct H as (w & Hw & Hle). rewrite Hw. now apply dlt_false_Fin.
Qed.

(** X14.  The growth step adds 0.005 to [varianceX] and [varianceY] and
    does nothing else to them: after [n] growth steps the value of a
    cell is its old value with 0.005 added [n] times, in double
    arithmetic.  It is never clamped: it is the same whatever
    [minVariance] and [maxVariance] are, and it is never lower than
    before.  The elevation and the color channels are not touched by the
    growth. *)
Theorem growth_accumulates_in_varianceXY n s i j lo hi :
  let s' := grown n s in
  let add := fun x => (x + Fin (1 # 200))%D in
  coeff (varianceDataX_ s') i j = Nat.iter n add (coeff (varianceDataX_ s) i j)
  /\ coeff (varianceDataY_ s') i j = Nat.iter n add (coeff (varianceDataY_ s) i j)
  /\ coeff (varianceDataX_ (grown n (set_varianceBounds lo hi s))) i j
     = coeff (varianceDataX_ s') i j
  /\ coeff (varianceDataY_ (grown n (set_varianceBounds lo hi s))) i j
     = coeff (varianceDataY_ s') i j
  /\ (coeff (varianceDataX_ s') i j <? coeff (varianceDataX_ s) i j)%D = false
  /\ (coeff (varianceDataY_ s') i j <? coeff (varianceDataY_ s) i j)%D = false
  /\ elevationData_ s' = elevationData_ s
  /\ colorData_ s' = colorData_ s.
Proof.
  cbv zeta.
  assert (H : forall s0,
             coeff (varianceDataX_ (grown n s0)) i j
             = Nat.iter n (fun x => (x + Fin (1 # 200))%D) (coeff (varianceDataX_ s0) i j)
             /\ coeff (varianceDataY_ (grown n s0)) i j
                = Nat.iter n (fun x => (x + Fin (1 # 200))%D) (coeff (varianceDataY_ s0) i j)
             /\ elevationData_ (grown n s0) = elevationData_ s0
             /\ colorData_ (grown n s0) = colorData_ s0).
  { intro s0. induction n as [|n (IHx & IHy & IHe & IHc)]; [repeat split|].
    rewrite grown_S, !Nat.iter_succ.
    change (coeff (varianceDataX_ (state_of (updateProcessNoise 0%Q (grown n s0)))) i j)
      with (coeff (varianceDataX_ (grown n s0)) i j + processNoise)%D.
    change (coeff (varianceDataY_ (state_of (updateProcessNoise 0%Q (grown n s0)))) i j)
      with (coeff (varianceDataY_ (grown n s0)) i j + processNoise)%D.
    rewrite IHx, IHy. repeat split; assumption. }
  destruct (H s) as (Hx & Hy & He & Hc).
  destruct (H (set_varianceBounds lo hi s)) as (Hx' & Hy' & _ & _).
  rewrite Hx', Hy', Hx, Hy.
  repeat (split; [reflexivity|]).
  split; [apply (noise_does_not_lower _ n)|].
  split; [apply (noise_does_not_lower _ n)|].
  split; assumption.
Qed.

(** ** A map shorter than one cell *)

Lemma static_cast_int_small l r :
  (0 < r)%Q -> (- r < l)%Q -> (l < r)%Q ->
  static_cast_int (Fin l / Fin r)%D = Some 0.
Proof.
  intros Hr Hlo Hhi.
  rewrite ddiv_Fin by lra.
  assert (H1 : (-1 < l / r)%Q) by (apply Qlt_shift_div_l; lra).
  assert (H2 : (l / r < 1)%Q) by (apply Qlt_shift_div_r; lra).
  rewrite <- (Qred_correct (l / r)) in H1, H2.
  unfold static_cast_int.
  destruct (Qred (l / r)) as [n d].
  unfold Qlt in H1, H2; cbn in H1, H2. cbn [Qnum Qden].
  assert (Hq : Z.quot n (Z.pos d) = 0).
  { destruct (Z.le_gt_cases 0 n) as [Hn|Hn].
    - apply Z.quot_small. lia.
    - rewrite <- (Z.opp_involutive n), Z.quot_opp_l by lia.
      rewrite Z.quot_small by lia. reflexivity. }
  rewrite Hq. reflexivity.
Qed.

(** X15.  The cast to [int] truncates toward zero: when both lengths are
    smaller than the resolution in absolute value, negative lengths
    included, [resize] succeeds and leaves the five channels with no row
    and no column. *)
Theorem resize_below_one_cell_is_empty s lengthX lengthY resolution :
  resolution_ s = Fin resolution ->
  (0 < resolution)%Q ->
  (- resolution < lengthX)%Q -> (lengthX < resolution)%Q ->
  (- resolution < lengthY)%Q -> (lengthY < resolution)%Q ->
  exists s1,
    resize (Fin lengthX, Fin lengthY) s
    = Some (true, s1,
            [Log Debug "Elevation map matrix resized to %i rows and %i columns."])
    /\ dims s1 = ((0, 0), (0, 0), (0, 0), (0, 0), (0, 0))
    /\ length_ s1 = (Fin lengthX, Fin lengthY).
Proof.
  intros Hres Hr Hx1 Hx2 Hy1 Hy2.
  unfold resize. cbn [length_ resolution_ set_length fst snd].
  rewrite Hres.
  rewrite (static_cast_int_small lengthX resolution Hr Hx1 Hx2).
  rewrite (static_cast_int_small lengthY resolution Hr Hy1 Hy2).
  cbn. eexists. repeat split.
Qed.

Lemma resize_below_one_cell_is_empty_witness :
  resolution_ smallConfigured = Fin (1 # 10)
  /\ exists s1,
      resize (Fin (- (1 # 20)), Fin (9 # 100)) smallConfigured
      = Some (true, s1,
              [Log Debug "Elevation map matrix resized to %i rows and %i columns."])
      /\ dims s1 = ((0, 0), (0, 0), (0, 0), (0, 0), (0, 0))
      /\ length_ s1 = (Fin (- (1 # 20)), Fin (9 # 100)).
Proof.
  assert (Hres : resolution_ smallConfigured = Fin (1 # 10)) by (vm_compute; reflexivity).
  split; [exact Hres|].
  apply (resize_below_one_cell_is_empty smallConfigured (- (1 # 20)) (9 # 100) (1 # 10) Hres);
    reflexivity.
Defined.

(** ** The cells a batch reaches *)

Lemma filter_none {A} (f : A -> bool) l :
  (forall a, In a l -> f a = false) -> filter f l = [].
Proof.
  induction l as [|a l IH]; intro H; [reflexivity|].
  cbn [filter]. rewrite (H a (or_introl eq_refl)).
  apply IH. intros b Hb. apply H. now right.
Qed.

(** X17.  A batch none of whose points passes the depth filter (all
    beyond the cutoff depth, behind the sensor or not finite) changes
    the object exactly as a batch without points does, also when the
    lookup of the transform succeeds: the growth step and the time
    stamp, no fusion. *)
Theorem filtered_out_batch_fuses_nothing G env pointCloud s :
  (forall p, In p (points pointCloud) ->
             passThrough (sensorCutoffDepth_ s) p = false) ->
  state_of (pointCloudCallback G env pointCloud s)
  = set_timeOfLastUpdate (stamp pointCloud)
      (state_of (updateProcessNoise (stamp pointCloud) s)).
Proof.
  intro H. rewrite pointCloudCallback_state.
  destruct (lookupTransform _ _ _ _) as [t|what]; [|reflexivity].
  unfold surviving. rewrite (filter_none _ _ H). reflexivity.
Qed.

Lemma filtered_out_batch_fuses_nothing_witness :
  let G := getIndexFromPosition_spec in
  let cloud := batch 2%Q 5 (pointAt 4) in
  passThrough (sensorCutoffDepth_ observedNode) (pointAt 4) = false
  /\ state_of (pointCloudCallback G (envOf 1 true) cloud observedNode)
     = set_timeOfLastUpdate 2%Q (state_of (updateProcessNoise 2%Q observedNode))
  /\ coeff (elevationData_ (state_of (pointCloudCallback G (envOf 1 true) cloud
                                        observedNode))) 150 150 = Fin 1.
Proof.
  intros G cloud.
  assert (H : passThrough (sensorCutoffDepth_ observedNode) (pointAt 4) = false)
    by (vm_compute; reflexivity).
  split; [exact H|].
  assert (E : state_of (pointCloudCallback G (envOf 1 true) cloud observedNode)
              = set_timeOfLastUpdate 2%Q (state_of (updateProcessNoise 2%Q observedNode))).
  { apply (filtered_out_batch_fuses_nothing G (envOf 1 true) cloud observedNode).
    intros p Hp. apply repeat_spec in Hp. subst p. exact H. }
  split; [exact E|]. rewrite E. vm_compute. reflexivity.
Defined.

Lemma addPoint_other_cell G point s i j :
  G (px point, py point) (length_ s) (resolution_ s) <> Some (i, j) ->
  cell (state_of (addPoint G point s)) i j = cell s i j.
Proof.
  intro Hne. rewrite addPoint_state.
  destruct (G _ _ _) as [[i0 j0]|]; [|reflexivity].
  assert (Hb : ((i =? i0)%Z && (j =? j0)%Z)%bool = false).
  { destruct (Z.eqb_spec i i0), (Z.eqb_spec j j0); try reflexivity.
    subst. now elim Hne. }
  unfold fuse, cell. cbn -[dadd dmul ddiv measurementVariance Z.eqb].
  destruct (isnan _); cbn -[dadd dmul ddiv measurementVariance Z.eqb];
    rewrite !Hb; reflexivity.
Qed.

Lemma forEach_addPoint_other_cell G i j l :
  forall s,
    (forall p, In p l -> G (px p, py p) (length_ s) (resolution_ s) <> Some (i, j)) ->
    cell (state_of (forEach l (addPoint G) s)) i j = cell s i j.
Proof.
  induction l as [|p l IH]; intros s H; [reflexivity|].
  rewrite forEach_cons.
  destruct (addPoint_keeps G p s) as (Hcfg & _). unfold config in Hcfg.
  rewrite IH.
  - apply addPoint_other_cell, H. now left.
  - intros q Hq.
    assert (length_ (state_of (addPoint G p s)) = length_ s) as -> by congruence.
    assert (resolution_ (state_of (addPoint G p s)) = resolution_ s) as -> by congruence.
    apply H. now right.
Qed.

(** X18.  A batch changes the elevation and the color of a cell only if
    one of its surviving points falls into that cell.  In every other
    cell the elevation and the color are unchanged and the three
    variances are those of the growth step: [varianceX] and [varianceY]
    have grown by 0.005. *)
Theorem batch_leaves_other_cells G env pointCloud s t i j :
  lookupTransform env (elevationMapFrameId_ s) (frame_id pointCloud) (stamp pointCloud)
  = inl t ->
  (forall p, In p (surviving s pointCloud t) ->
             G (px p, py p) (length_ s) (resolution_ s) <> Some (i, j)) ->
  let s' := state_of (pointCloudCallback G env pointCloud s) in
  coeff (elevationData_ s') i j = coeff (elevationData_ s) i j
  /\ coeff (colorData_ s') i j = coeff (colorData_ s) i j
  /\ coeff (varianceData_ s') i j
     = coeff (varianceData_ (state_of (updateProcessNoise (stamp pointCloud) s))) i j
  /\ coeff (varianceDataX_ s') i j = (coeff (varianceDataX_ s) i j + Fin (1 # 200))%D
  /\ coeff (varianceDataY_ s') i j = (coeff (varianceDataY_ s) i j + Fin (1 # 200))%D.
Proof.
  intros Hlookup Hother s'. subst s'.
  rewrite pointCloudCallback_state, Hlookup.
  set (s1 := set_timeOfLastUpdate (stamp pointCloud)
               (state_of (updateProcessNoise (stamp pointCloud) s))).
  assert (Hcell : cell (state_of (forEach (surviving s pointCloud t) (addPoint G) s1)) i j
                  = cell s1 i j).
  { apply forEach_addPoint_other_cell. exact Hother. }
  unfold cell in Hcell. injection Hcell as He Hv Hx Hy Hc.
  rewrite He, Hv, Hx, Hy, Hc. repeat split.
Qed.

Lemma batch_leaves_other_cells_witness :
  let G := getIndexFromPosition_spec in
  let s' := state_of (pointCloudCallback G (envOf 1 true) (batch 2%Q 1 sidePoint)
                        observedNode) in
  G (Fin (1 # 100), Fin 0) (length_ observedNode) (resolution_ observedNode)
  = Some (151, 150)
  /\ coeff (elevationData_ s') 150 150 = coeff (elevationData_ observedNode) 150 150
  /\ coeff (colorData_ s') 150 150 = coeff (colorData_ observedNode) 150 150
  /\ coeff (varianceDataX_ s') 150 150 = Fin (61 # 200)
  /\ coeff (elevationData_ s') 151 150 = Fin 3.
Proof.
  intros G s'.
  assert (Hidx : G (Fin (1 # 100), Fin 0) (length_ observedNode) (resolution_ observedNode)
                 = Some (151, 150)) by (vm_compute; reflexivity).
  split; [exact Hidx|].
  destruct (batch_leaves_other_cells G (envOf 1 true) (batch 2%Q 1 sidePoint)
              observedNode setIdentity 150 150 eq_refl) as (He & Hc & _ & Hx & _).
  { intros p Hp.
    assert (Hs : surviving observedNode (batch 2%Q 1 sidePoint) setIdentity = [sidePoint])
      by (vm_compute; reflexivity).
    rewrite Hs in Hp. destruct Hp as [<-|[]].
    change (px sidePoint, py sidePoint) with (Fin (1 # 100), Fin 0).
    rewrite Hidx. discriminate. }
  subst s'.
  split; [exact He|]. split; [exact Hc|].
  split; [rewrite Hx; vm_compute; reflexivity|].
  vm_compute. reflexivity.
Defined.
